(** * httomolibgpu: memory estimator, distortion correction, median filter

    A shallow embedding of [httomolibgpu/prep/alignment.py] and
    [httomolibgpu/misc/corr.py].  Python integers are [Z]; NumPy [int64]
    scalars are [Z] with their wrap-around written out; array elements
    (uint16 and finite float32 values) are rationals [Q]; exceptions are
    values of an error type; the accelerator is an explicit store of
    buffers with a trace of device events. *)

From Stdlib Require Import ZArith QArith Qabs Qminmax Qround Lia Lqa Ascii String.
From stdpp Require Import gmap strings list pretty sorting.

Set Warnings "-register-all".

Local Open Scope Z_scope.

(** ** NumPy scalars *)

Module Np.

(** [np.int64] arithmetic wraps modulo 2^64 into the signed range. *)
Definition wrap64 (z : Z) : Z := (z + 2 ^ 63) mod 2 ^ 64 - 2 ^ 63.

Definition in_int64 (z : Z) : Prop := - 2 ^ 63 <= z < 2 ^ 63.

(** [np.float64().nbytes] *)
Definition float64_nbytes : Z := 8.

(** A [np.dtype] as far as the code looks at it: its name (what
    [data.dtype] compares equal to) and [dtype.itemsize]. *)
Record dtype := { dtype_name : string; itemsize : Z }.

Definition float32 : dtype := {| dtype_name := "float32"; itemsize := 4 |}.
Definition uint16 : dtype := {| dtype_name := "uint16"; itemsize := 2 |}.
Definition float64 : dtype := {| dtype_name := "float64"; itemsize := 8 |}.

(** [np.prod] of a 2-tuple of Python ints: an [int64] product. *)
Definition prod2 (shape : Z * Z) : Z := wrap64 (wrap64 (1 * fst shape) * snd shape).

(** [a // b] on [int64] scalars: floor division, 0 when [b] is 0. *)
Definition floordiv (a b : Z) : Z := wrap64 (a / b).

End Np.

(** ** [_calc_max_slices_distortion_correction_proj] *)

Module Estimator.
Import Np.

Definition _calc_max_slices_distortion_correction_proj
    (non_slice_dims_shape : Z * Z) (dt : dtype) (available_memory : Z)
    : Z * dtype * (Z * Z) :=
  let height := fst non_slice_dims_shape in
  let width := snd non_slice_dims_shape in
  let lists_size := (width + height) * float64_nbytes in
  let meshgrid_size := (width * height * 2) * float64_nbytes in
  let ru_mat_size := meshgrid_size / 2 in
  let fact_mat_size := ru_mat_size in
  let xd_mat_size := fact_mat_size / 2 in
  let yd_mat_size := xd_mat_size in
  let indices_size := xd_mat_size + yd_mat_size in
  let slice_size := wrap64 (prod2 non_slice_dims_shape * itemsize dt) in
  let processing_size := wrap64 (slice_size * 4) in
  let available_memory :=
    wrap64 (available_memory
            - wrap64 (wrap64 (lists_size + meshgrid_size + ru_mat_size
                              + fact_mat_size * 2 + xd_mat_size + yd_mat_size
                              + processing_size)
                      + indices_size * 3)) in
  (floordiv available_memory slice_size, dt, non_slice_dims_shape).

(** The bytes the estimator subtracts before dividing: the listed
    temporaries, four slice-sized buffers among them. *)
Definition fixed_overhead (h w isz : Z) : Z :=
  8 * (w + h) + 72 * (w * h) + 4 * (h * w * isz).

(** The estimate as the specification words it: overhead subtracted,
    divided by four slices' worth of bytes, clamped at zero. *)
Definition spec_max_slices (overhead h w isz avail : Z) : Z :=
  Z.max 0 ((avail - overhead) / (h * w * isz * 4)).

End Estimator.

(** ** Python values the code handles *)

Module Py.

Inductive exn_class :=
  | TypeError | ValueError | IndexError | KeyError | RuntimeError
  | FileNotFoundError | PermissionError | IsADirectoryError.

(** [IOError] is [OSError]; these are its subclasses that [open] raises. *)
Definition is_IOError (c : exn_class) : bool :=
  match c with
  | FileNotFoundError | PermissionError | IsADirectoryError => true
  | _ => false
  end.

(** An exception with its message and its [__cause__]
    (set by [raise ... from exc]). *)
Inductive exn := Exn (cls : exn_class) (msg : string) (cause : option exn).

Definition exn_cls (e : exn) : exn_class := let 'Exn c _ _ := e in c.
Definition exn_msg (e : exn) : string := let 'Exn _ m _ := e in m.
Definition exn_cause (e : exn) : option exn := let 'Exn _ _ c := e in c.

Inductive result (A : Type) := Ok (a : A) | Raise (e : exn).
Arguments Ok {A} a.
Arguments Raise {A} e.

Definition is_Raise {A} (r : result A) : bool :=
  match r with Raise _ => true | Ok _ => false end.

(** *** [str.splitlines], [str.split] and [repr]

    A character is a code point below 256, which is what the 8-bit
    characters of [string] can hold; text with higher code points has no
    counterpart here. *)

Definition code (c : ascii) : N := N_of_ascii c.

(** Line boundaries of [str.splitlines]: LF, VT, FF, CR, FS, GS, RS and
    NEL (U+0085). *)
Definition is_linebreak (c : ascii) : bool :=
  let n := code c in
  ((10 <=? n) && (n <=? 13) || (28 <=? n) && (n <=? 30) || (n =? 133))%N.

(** White space of [str.split()]: the characters for which [str.isspace]
    holds, NEL (U+0085) and the no-break space (U+00A0) among them. *)
Definition is_space (c : ascii) : bool :=
  let n := code c in
  ((n =? 32) || (9 <=? n) && (n <=? 13) || (28 <=? n) && (n <=? 31)
   || (n =? 133) || (n =? 160))%N.

(** [str.isprintable] of one character. *)
Definition is_printable (c : ascii) : bool :=
  let n := code c in
  ((32 <=? n) && (n <=? 126) || (161 <=? n) && (n <=? 172)
   || (174 <=? n) && (n <=? 255))%N.

Definition hex_digit (n : N) : ascii :=
  ascii_of_N (if (n <? 10)%N then 48 + n else 87 + n)%N.

Definition backslash : ascii := ascii_of_N 92.
Definition single_quote : ascii := ascii_of_N 39.
Definition double_quote : ascii := ascii_of_N 34.

(** How [repr] writes one character inside the chosen quotes. *)
Definition repr_char (quote c : ascii) : string :=
  let n := code c in
  if Ascii.eqb c quote || Ascii.eqb c backslash then
    String backslash (String c EmptyString)
  else if (n =? 9)%N then String backslash "t"
  else if (n =? 10)%N then String backslash "n"
  else if (n =? 13)%N then String backslash "r"
  else if is_printable c then String c EmptyString
  else
    String backslash
      (String "x"%char
         (String (hex_digit (n / 16)) (String (hex_digit (n mod 16)) EmptyString))).

(** [repr(s)] of a [str]: single quotes, unless the text holds single
    quotes and no double quote. *)
Definition py_repr (s : string) : string :=
  let chars := list_ascii_of_string s in
  let quote :=
    if existsb (Ascii.eqb single_quote) chars
       && negb (existsb (Ascii.eqb double_quote) chars)
    then double_quote else single_quote in
  String quote
    (fold_right (fun c acc => repr_char quote c +:+ acc)
       (String quote EmptyString) chars).

Definition CR : ascii := ascii_of_N 13.
Definition LF : ascii := ascii_of_N 10.

(** Text mode with universal newlines: [\r\n] and [\r] read as [\n]. *)
Fixpoint translate_newlines (s : string) : string :=
  match s with
  | EmptyString => EmptyString
  | String c rest =>
      if Ascii.eqb c CR then
        match rest with
        | String c' rest' =>
            if Ascii.eqb c' LF then String LF (translate_newlines rest')
            else String LF (translate_newlines rest)
        | EmptyString => String LF EmptyString
        end
      else String c (translate_newlines rest)
  end.

(** [cur] holds the characters of the line being read, last first. *)
Fixpoint splitlines_from (cur : list ascii) (s : string) : list string :=
  match s with
  | EmptyString =>
      match cur with
      | [] => []
      | _ => [string_of_list_ascii (rev cur)]
      end
  | String c rest =>
      if Ascii.eqb c CR then
        match rest with
        | String c' rest' =>
            if Ascii.eqb c' LF
            then string_of_list_ascii (rev cur) :: splitlines_from [] rest'
            else string_of_list_ascii (rev cur) :: splitlines_from [] rest
        | EmptyString => [string_of_list_ascii (rev cur)]
        end
      else if is_linebreak c
      then string_of_list_ascii (rev cur) :: splitlines_from [] rest
      else splitlines_from (c :: cur) rest
  end.

Definition splitlines (s : string) : list string := splitlines_from [] s.

Definition flush (cur : list ascii) : list string :=
  match cur with
  | [] => []
  | _ => [string_of_list_ascii (rev cur)]
  end.

Fixpoint split_from (cur : list ascii) (s : string) : list string :=
  match s with
  | EmptyString => flush cur
  | String c rest =>
      if is_space c then flush cur ++ split_from [] rest
      else split_from (c :: cur) rest
  end.

(** [s.split()] *)
Definition split (s : string) : list string := split_from [] s.

(** [l[i]] for a non-negative literal index. *)
Definition getitem {A} (l : list A) (i : nat) : result A :=
  match l !! i with
  | Some x => Ok x
  | None => Raise (Exn IndexError "list index out of range" None)
  end.

(** [l[-1]] *)
Definition getitem_last {A} (l : list A) : result A :=
  match last l with
  | Some x => Ok x
  | None => Raise (Exn IndexError "list index out of range" None)
  end.

(** [slice(start, stop).indices(len)]: the half-open range a slice
    [a[start:stop]] selects on an axis of length [len]. *)
Definition slice_bound (i len : Z) : Z :=
  if i <? 0 then Z.max 0 (i + len) else Z.min i len.

Definition slice_range (start stop len : Z) : Z * Z :=
  let lo := slice_bound start len in
  let hi := slice_bound stop len in
  (lo, Z.max 0 (hi - lo)).

End Py.

(** ** The host file system, the accelerator store and the effect monad *)

Module World.
Import Py.

(** A regular file holds its text as [open(path, "r")] decodes it, before
    the translation of newlines. *)
Inductive fsnode := RegularFile (text : string) | Unreadable | Directory.

Inductive event :=
  | FileOpen (path : string)
  | DeviceAlloc (what : string) (nelems : Z)
  | DeviceCall (routine : string)
  | KernelCompile (name : string)
  | KernelLaunch (name : string) (grid block : Z * Z * Z).

Definition is_device_event (e : event) : bool :=
  match e with FileOpen _ => false | _ => true end.

(** Events on the accelerator among those of a trace. *)
Definition device_events (t : list event) : list event :=
  List.filter is_device_event t.

Definition addr := positive.

(** Device buffers hold their elements flat, in C order. *)
Record world := World {
  fs : gmap string fsnode;
  heap : gmap addr (list Q);
  trace : list event
}.

(** A [cp.ndarray]: a view on a device buffer.  Arrays obtained from one
    another by [cp.expand_dims] share [base]. *)
Record ndarray := NdArray { base : addr; shape : list Z; dtype : Np.dtype }.

Definition ndim (a : ndarray) : nat := length (shape a).

Definition M (A : Type) : Type := world -> result A * world.

Definition ret {A} (a : A) : M A := fun w => (Ok a, w).

Definition bind {A B} (m : M A) (k : A -> M B) : M B :=
  fun w =>
    match m w with
    | (Ok a, w') => k a w'
    | (Raise e, w') => (Raise e, w')
    end.

Definition raise {A} (e : exn) : M A := fun w => (Raise e, w).

Definition lift {A} (r : result A) : M A := fun w => (r, w).

(** [try: m  except IOError as exc: h exc] *)
Definition except_IOError {A} (m : M A) (h : exn -> M A) : M A :=
  fun w =>
    match m w with
    | (Raise e, w') => if is_IOError (exn_cls e) then h e w' else (Raise e, w')
    | r => r
    end.

Definition emit (evs : list event) : M unit :=
  fun w => (Ok tt, World (fs w) (heap w) (trace w ++ evs)).

Definition read_buffer (a : addr) : M (list Q) :=
  fun w => (Ok (default [] (heap w !! a)), w).

Definition write_buffer (a : addr) (b : list Q) : M unit :=
  fun w => (Ok tt, World (fs w) (<[a := b]> (heap w)) (trace w)).

(** What a computation leaves alone when it touches neither the
    accelerator nor the files. *)
Definition host_only (w w' : world) : Prop :=
  fs w' = fs w /\ heap w' = heap w
  /\ device_events (trace w') = device_events (trace w).

(** The files and every buffer but the one at [a] are as they were. *)
Definition writes_only (a : addr) (w w' : world) : Prop :=
  fs w' = fs w /\ forall b, b <> a -> heap w' !! b = heap w !! b.

(** [m] writes no buffer but the one at [a], and what it returns
    satisfies [P]. *)
Definition confined {A} (a : addr) (P : A -> Prop) (m : M A) : Prop :=
  forall w r w', m w = (r, w') ->
    writes_only a w w' /\ forall x, r = Ok x -> P x.

End World.

Declare Scope py_scope.
Delimit Scope py_scope with py.
Notation "'let*' x := m 'in' k" := (World.bind m (fun x => k))
  (at level 10, x name, m at level 100, k at level 200) : py_scope.
Notation "'let*' ' p := m 'in' k" := (World.bind m (fun x => let p := x in k))
  (at level 10, p pattern, m at level 100, k at level 200) : py_scope.
Notation "'do' m 'in' k" := (World.bind m (fun _ => k))
  (at level 10, m at level 100, k at level 200) : py_scope.

(** ** Decimal literals: the finite part of what Python's [float] reads *)

Module Decimal.
Import Py.

Definition digit_val (c : ascii) : option Z :=
  let n := code c in
  if ((48 <=? n) && (n <=? 57))%N then Some (Z.of_N n - 48) else None.

(** Reads a run of digits into [acc]; returns the value, the number of
    digits read and what follows. *)
Fixpoint digits (acc : Z) (cnt : Z) (s : string) : Z * Z * string :=
  match s with
  | String c rest =>
      match digit_val c with
      | Some d => digits (acc * 10 + d) (cnt + 1) rest
      | None => (acc, cnt, s)
      end
  | EmptyString => (acc, cnt, s)
  end.

Definition sign (s : string) : bool * string :=
  match s with
  | String c rest =>
      if Ascii.eqb c "-"%char then (true, rest)
      else if Ascii.eqb c "+"%char then (false, rest)
      else (false, s)
  | EmptyString => (false, s)
  end.

Definition exponent (s : string) : option Z :=
  match s with
  | EmptyString => Some 0
  | String c rest =>
      if Ascii.eqb c "e"%char || Ascii.eqb c "E"%char then
        let '(neg, rest) := sign rest in
        match digits 0 0 rest with
        | (v, n, EmptyString) =>
            if n =? 0 then None else Some (if neg then - v else v)
        | _ => None
        end
      else None
  end.

(** An optional sign, digits, an optional point and digits, an optional
    exponent ([e] or [E], sign, digits); the mantissa has a digit.  The
    value is exact.  It stands in for [float] in the examples only: it
    reads neither [nan], [inf] nor digits grouped by underscores, and it
    does not round to the nearest double. *)
Definition decimal_float (s : string) : option Q :=
  let '(neg, s) := sign s in
  let '(ip, ni, s) := digits 0 0 s in
  let '(mant, nf, s) :=
    match s with
    | String c rest => if Ascii.eqb c "."%char then digits ip 0 rest else (ip, 0, s)
    | EmptyString => (ip, 0, s)
    end in
  if ni + nf =? 0 then None
  else
    match exponent s with
    | None => None
    | Some e =>
        Some (Qred (inject_Z (if neg then - mant else mant)
                    * Qpower (inject_Z 10) (e - nf)))
    end.

End Decimal.

(** ** [httomolibgpu/prep/alignment.py] *)

Module Alignment.
Import Py World.
Local Open Scope py_scope.

Definition nl : string := String LF EmptyString.

Definition stars47 : string := "***********************************************".
Definition stars41 : string := "*****************************************".

Definition step_msg : string :=
  nl +:+ stars47 +:+ nl
  +:+ "!!! ERROR !!! -> Method doesn't work with the step in"
  +:+ " the preview larger than 1 " +:+ nl
  +:+ stars47 +:+ nl.

Definition no_such_file_msg (metadata_path : string) : string :=
  "!!! No such file: " +:+ metadata_path +:+ " !!! Please check the file path".

Definition cant_open_msg (metadata_path : string) : string :=
  nl +:+ stars41 +:+ nl
  +:+ "!!! ERROR !!! -> Can't open this file: " +:+ metadata_path +:+ " " +:+ nl
  +:+ stars41 +:+ nl +:+ "                  ".

Definition preview_size_msg : string :=
  nl +:+ stars41 +:+ nl +:+ nl
  +:+ "!!! ERROR !!! -> You need to increase the preview"
  +:+ " size for this plugin to work " +:+ nl +:+ nl
  +:+ stars41 +:+ nl.

(** [open(file_path, "r")] followed by [f.read()]. *)
Definition open_read (file_path : option string) : M string :=
  fun w =>
    match file_path with
    | None =>
        (Raise (Exn TypeError
           "expected str, bytes or os.PathLike object, not NoneType" None), w)
    | Some p =>
        match fs w !! p with
        | None =>
            (Raise (Exn FileNotFoundError
               ("[Errno 2] No such file or directory: '" +:+ p +:+ "'") None), w)
        | Some Unreadable =>
            (Raise (Exn PermissionError
               ("[Errno 13] Permission denied: '" +:+ p +:+ "'") None), w)
        | Some Directory =>
            (Raise (Exn IsADirectoryError
               ("[Errno 21] Is a directory: '" +:+ p +:+ "'") None), w)
        | Some (RegularFile text) =>
            (Ok (translate_newlines text),
             World (fs w) (heap w) (trace w ++ [FileOpen p]))
        end
    end.

(** [os.path.isfile] *)
Definition isfile (p : string) : M bool :=
  fun w =>
    (Ok match fs w !! p with
        | Some (RegularFile _) | Some Unreadable => true
        | _ => false
        end, w).

(** [preview[key]] *)
Definition dict_getitem (d : gmap string (list Z)) (key : string) : M (list Z) :=
  match d !! key with
  | Some v => ret v
  | None => raise (Exn KeyError ("'" +:+ key +:+ "'") None)
  end.

(** [cp.arange(n)] *)
Definition arange (n : Z) : list Q :=
  map (fun i => inject_Z (Z.of_nat i)) (seq 0 (Z.to_nat n)).

(** [cp.meshgrid(xs, ys)], both matrices flat in C order. *)
Definition meshgrid (xs ys : list Q) : list Q * list Q :=
  (flat_map (fun _ => xs) ys, flat_map (fun y => map (fun _ => y) xs) ys).

(** [cp.clip(a, lo, hi)] *)
Definition clip (a lo hi : Q) : Q := Qmin (Qmax a lo) hi.

Definition list_max (l : list Q) : option Q :=
  match l with [] => None | x :: l' => Some (fold_left Qmax l' x) end.

Definition list_min (l : list Q) : option Q :=
  match l with [] => None | x :: l' => Some (fold_left Qmin l' x) end.

(** The elements [i*n .. (i+1)*n) of a flat buffer: slice [i] of a volume
    whose slices have [n] elements, and its replacement. *)
Definition get_slice (buf : list Q) (i n : nat) : list Q :=
  take n (drop (i * n) buf).

Definition set_slice (buf : list Q) (i n : nat) (v : list Q) : list Q :=
  take (i * n) buf ++ v ++ drop ((i + 1) * n) buf.

Definition zrange (n : Z) : list Z := map Z.of_nat (seq 0 (Z.to_nat n)).

(** [mat[r0 : r0 + nr, c0 : c0 + nc]] of a flat matrix with rows of
    [width] elements. *)
Definition crop2d (mat : list Q) (width r0 nr c0 nc : Z) : list Q :=
  flat_map
    (fun r =>
       take (Z.to_nat nc)
         (drop (Z.to_nat c0)
            (take (Z.to_nat width) (drop (Z.to_nat ((r0 + r) * width)) mat))))
    (zrange nr).

Definition shape_str (r c : Z) : string :=
  "(" +:+ pretty r +:+ "," +:+ pretty c +:+ ")".

(** What [target[...] = v] stores when [v] has shape [(nr, nc)] and the
    target [(height, width)]: NumPy broadcasting stretches axes of length
    1 and refuses every other mismatch. *)
Definition broadcast_to (v : list Q) (nr nc height width : Z) : result (list Q) :=
  if ((nr =? height) || (nr =? 1)) && ((nc =? width) || (nc =? 1)) then
    Ok (flat_map
          (fun r =>
             map (fun c =>
                    default 0%Q
                      (v !! Z.to_nat ((if nr =? height then r else 0) * nc
                                      + (if nc =? width then c else 0))))
               (zrange width))
          (zrange height))
  else
    Raise (Exn ValueError
             ("could not broadcast input array from shape " +:+ shape_str nr nc
              +:+ " into shape " +:+ shape_str height width) None).

(** [cp.reshape(a, (height, width))] of a flat array. *)
Definition reshape (a : list Q) (height width : Z) : result (list Q) :=
  if (Z.of_nat (length a) =? height * width) then Ok a
  else Raise (Exn ValueError "cannot reshape array" None).

Fixpoint for_range (body : nat -> M unit) (start count : nat) : M unit :=
  match count with
  | O => ret tt
  | S count' => do body start in for_range body (S start) count'
  end.

Definition tuple_getitem (t : list Z) (i : nat) : result Z :=
  match t !! i with
  | Some x => Ok x
  | None => Raise (Exn IndexError "tuple index out of range" None)
  end.

(** [cp.expand_dims(data, axis=0)]: a view, no new buffer. *)
Definition expand_dims (data : ndarray) : ndarray :=
  NdArray (base data) (1 :: shape data) (dtype data).

(** The array both variants work on: the caller's, or its one-slice
    view when it is a single image. *)
Definition promoted (data : ndarray) : ndarray :=
  if decide (ndim data = 2%nat) then expand_dims data else data.

Definition geometry_events (height width : Z) : list event :=
  [ DeviceAlloc "xu_list" width; DeviceAlloc "yu_list" height;
    DeviceAlloc "xu_mat" (height * width); DeviceAlloc "yu_mat" (height * width);
    DeviceAlloc "ru_mat" (height * width); DeviceAlloc "fact_mat" (height * width);
    DeviceAlloc "xd_mat" (height * width); DeviceAlloc "yd_mat" (height * width);
    DeviceAlloc "indices" (2 * (height * width)) ].

Section Primitives.

(** Python's [float] on a token ([None]: it raises [ValueError]), CuPy's
    square root and [cupyx.scipy.ndimage.map_coordinates] (input, its
    shape, the row and column coordinates, order, mode) are not code of
    this repository. *)
Variable py_float : string -> option Q.
Variable cp_sqrt : Q -> Q.
Variable map_coordinates :
  list Q -> list Z -> list Q -> list Q -> Z -> string -> result (list Q).

(** The loop of [_load_metadata_txt]:
    [list_data.append(float(i.split()[-1]))] for each line. *)
Fixpoint parse_lines (x : list string) (list_data : list Q) : result (list Q) :=
  match x with
  | [] => Ok list_data
  | i :: x' =>
      match getitem_last (split i) with
      | Raise e => Raise e
      | Ok tok =>
          match py_float tok with
          | None =>
              Raise (Exn ValueError
                       ("could not convert string to float: " +:+ py_repr tok) None)
          | Some v => parse_lines x' (list_data ++ [v])
          end
      end
  end.

Definition _load_metadata_txt (file_path : option string) : M (Q * Q * list Q) :=
  let* text := open_read file_path in
  let x := splitlines text in
  let* list_data := lift (parse_lines x []) in
  let* xcenter := lift (getitem list_data 0) in
  let* ycenter := lift (getitem list_data 1) in
  let list_fact := drop 2 list_data in
  ret (xcenter, ycenter, list_fact).

(** [sum(factor * ru**i for i, factor in enumerate(list_fact))] *)
Definition polynomial (list_fact : list Q) (ru : Q) : Q :=
  fold_left Qplus (imap (fun i factor => factor * ru ^ Z.of_nat i)%Q list_fact) 0%Q.

(** Lines 177-190 and 285-298, the same in both variants: the source
    coordinates [(xd_mat, yd_mat)] of every pixel, flat in C order.  The
    arithmetic is that of finite values without rounding; NaN, infinities
    and the cast to float32 have no counterpart here. *)
Definition distortion_field (x_center y_center : Q) (list_fact : list Q)
    (height width : Z) : list Q * list Q :=
  let xu_list := map (fun x => x - x_center)%Q (arange width) in
  let yu_list := map (fun y => y - y_center)%Q (arange height) in
  let '(xu_mat, yu_mat) := meshgrid xu_list yu_list in
  let ru_mat := zip_with (fun xu yu => cp_sqrt (xu ^ 2 + yu ^ 2)%Q) xu_mat yu_mat in
  let fact_mat := map (polynomial list_fact) ru_mat in
  let xd_mat :=
    zip_with (fun f xu => clip (x_center + f * xu) 0 (inject_Z (width - 1)))%Q
      fact_mat xu_mat in
  let yd_mat :=
    zip_with (fun f yu => clip (y_center + f * yu) 0 (inject_Z (height - 1)))%Q
      fact_mat yu_mat in
  (xd_mat, yd_mat).

(** [map_coordinates(data[i], indices, order, mode)] reshaped to
    [(height, width)]. *)
Definition resample (data : ndarray) (i : nat) (height width : Z)
    (yd_mat xd_mat : list Q) (order : Z) (mode : string) : M (list Q) :=
  let* buf := read_buffer (base data) in
  let n := Z.to_nat (height * width) in
  if decide (ndim data = 3%nat) then
    do emit [DeviceCall "map_coordinates"; DeviceAlloc "mat" (height * width)] in
    let* mat := lift (map_coordinates (get_slice buf i n) [height; width]
                        yd_mat xd_mat order mode) in
    lift (reshape mat height width)
  else
    raise (Exn RuntimeError "invalid shape for coordinate array" None).

(** [data[i] = v] for [v] of shape [(nr, nc)]. *)
Definition setitem_slice (data : ndarray) (i : nat) (height width : Z)
    (v : list Q) (nr nc : Z) : M unit :=
  let* stored := lift (broadcast_to v nr nc height width) in
  let* buf := read_buffer (base data) in
  write_buffer (base data) (set_slice buf i (Z.to_nat (height * width)) stored).

(** [cp.asarray(value, dtype=cp.float32)] of an optional scalar.  On [None]
    CuPy stores a NaN, which [Q] lacks; the only call site is never
    reached with [None] centres that matter (see [metadata_none_raises]),
    and the model raises there. *)
Definition cp_asarray (what : string) (value : option Q) : M Q :=
  match value with
  | Some v => do emit [DeviceAlloc what 1] in ret v
  | None => raise (Exn TypeError "float() argument must be a number, not NoneType" None)
  end.

(** [cp.float32(tuple(polynomial_coeffs))] *)
Definition cp_float32_tuple (coeffs : option (list Q)) : M (list Q) :=
  match coeffs with
  | Some l => do emit [DeviceAlloc "list_fact" (Z.of_nat (length l))] in ret l
  | None => raise (Exn TypeError "'NoneType' object is not iterable" None)
  end.

(** [diff_y = cp.max(yd_mat) - cp.min(yd_mat)] *)
Definition spread (yd_mat : list Q) : M Q :=
  match list_max yd_mat, list_min yd_mat with
  | Some hi, Some lo => ret (hi - lo)%Q
  | _, _ =>
      raise (Exn ValueError
               "zero-size array to reduction operation cupy.max which has no identity"
               None)
  end.

Definition distortion_correction_proj
    (data : ndarray) (metadata_path : option string)
    (preview : gmap string (list Z))
    (center_from_left center_from_top : option Q)
    (polynomial_coeffs : option (list Q)) (crop : Z) : M ndarray :=
  let data := if decide (ndim data = 2%nat) then expand_dims data else data in
  let* '(x_center, y_center, list_fact) := _load_metadata_txt metadata_path in
  let* shift := dict_getitem preview "starts" in
  let* step := dict_getitem preview "steps" in
  let x_dim := 1%nat in
  let y_dim := 0%nat in
  let* step_x := lift (getitem step x_dim) in
  let* step_y := lift (getitem step y_dim) in
  let step_check := 1 <? Z.max step_x step_y in
  if step_check then raise (Exn ValueError step_msg None)
  else
    let* x_offset := lift (getitem shift x_dim) in
    let* y_offset := lift (getitem shift y_dim) in
    let* '(x_center, y_center, list_fact) :=
      match metadata_path with
      | None =>
          let* cl := cp_asarray "x_center" center_from_left in
          let* ct := cp_asarray "y_center" center_from_top in
          let* lf := cp_float32_tuple polynomial_coeffs in
          ret (cl - inject_Z x_offset, ct - inject_Z y_offset, lf)%Q
      | Some p =>
          let* found := isfile p in
          if negb found then raise (Exn ValueError (no_such_file_msg p) None)
          else
            except_IOError
              (let* '(x_center, y_center, list_fact) :=
                 _load_metadata_txt metadata_path in
               ret (x_center - inject_Z x_offset,
                    y_center - inject_Z y_offset, list_fact)%Q)
              (fun exc => raise (Exn ValueError (cant_open_msg p) (Some exc)))
      end in
    let* height := lift (tuple_getitem (shape data) (y_dim + 1)) in
    let* width := lift (tuple_getitem (shape data) (x_dim + 1)) in
    do emit (geometry_events height width) in
    let '(xd_mat, yd_mat) :=
      distortion_field x_center y_center list_fact height width in
    let* diff_y := spread yd_mat in
    if Qlt_le_dec diff_y 1 then raise (Exn ValueError preview_size_msg None)
    else
      let* count := lift (tuple_getitem (shape data) 0) in
      do for_range
           (fun i =>
              let* mat_corrected :=
                resample data i height width yd_mat xd_mat 1 "reflect" in
              let '(r0, nr) := slice_range crop (height - crop) height in
              let '(c0, nc) := slice_range crop (width - crop) width in
              setitem_slice data i height width
                (crop2d mat_corrected width r0 nr c0 nc) nr nc)
           0 (Z.to_nat count) in
      ret data.

Definition distortion_correction_proj_discorpy
    (data : ndarray) (metadata_path : option string)
    (preview : gmap string (list Z)) (order : Z) (mode : string) : M ndarray :=
  let data := if decide (ndim data = 2%nat) then expand_dims data else data in
  let* '(xcenter, ycenter, list_fact) := _load_metadata_txt metadata_path in
  let* shift := dict_getitem preview "starts" in
  let* step := dict_getitem preview "steps" in
  let x_dim := 1%nat in
  let y_dim := 0%nat in
  let* step_x := lift (getitem step x_dim) in
  let* step_y := lift (getitem step y_dim) in
  let step_check := 1 <? Z.max step_x step_y in
  if step_check then raise (Exn ValueError step_msg None)
  else
    let* x_offset := lift (getitem shift x_dim) in
    let* y_offset := lift (getitem shift y_dim) in
    let xcenter := (xcenter - inject_Z x_offset)%Q in
    let ycenter := (ycenter - inject_Z y_offset)%Q in
    let* height := lift (tuple_getitem (shape data) (y_dim + 1)) in
    let* width := lift (tuple_getitem (shape data) (x_dim + 1)) in
    do emit (geometry_events height width) in
    let '(xd_mat, yd_mat) :=
      distortion_field xcenter ycenter list_fact height width in
    let* count := lift (tuple_getitem (shape data) 0) in
    do for_range
         (fun i =>
            let* mat := resample data i height width yd_mat xd_mat order mode in
            setitem_slice data i height width mat height width)
         0 (Z.to_nat count) in
    ret data.

End Primitives.

End Alignment.

(** ** [httomolibgpu/misc/corr.py] *)

Module Corr.
Import Py World.
Local Open Scope py_scope.

#[global] Instance Qle_dec : RelDecision Qle :=
  fun x y =>
    match Qlt_le_dec y x with
    | left H => right (Qlt_not_le _ _ H)
    | right H => left H
    end.

#[global] Instance Qlt_dec : RelDecision Qlt :=
  fun x y =>
    match Qlt_le_dec x y with
    | left H => left H
    | right H => right (Qle_not_lt _ _ H)
    end.

Definition product (shape : list Z) : Z := fold_right Z.mul 1 shape.

(** [cp.empty(shape, dtype, order="C")]: a buffer no existing array
    uses.  Its contents are unspecified; zeros stand for them. *)
Definition cp_empty (shape : list Z) (dt : Np.dtype) : M ndarray :=
  fun w =>
    let a := fresh (dom (heap w)) in
    let n := Z.to_nat (product shape) in
    (Ok (NdArray a shape dt),
     World (fs w) (<[a := replicate n 0%Q]> (heap w))
       (trace w ++ [DeviceAlloc "out" (Z.of_nat n)])).

(** A compiled routine of the median module: its name expression and the
    kernel diameter it was specialised for. *)
Record kernel := Kernel { kname : string; diameter : Z }.

(** Modelled from the spec: [load_cuda_module] of
    [httomolibgpu/cuda_kernels] is not among the sources.  It compiles the
    named module for the given name expression; [get_function] then hands
    out the routine. *)
Definition load_cuda_module (module_name : string) (name_expression : string)
    (kernel_size : Z) : M kernel :=
  do emit [KernelCompile (module_name +:+ ":" +:+ name_expression)] in
  ret (Kernel name_expression kernel_size).

(** *** The kernel

    The CUDA source [median_kernel.cu] is not among the sources; the
    definitions of this part follow the specification's account of it. *)

(** Modelled from the spec: [median_kernel.cu] is missing; a neighbour
    index outside the volume is clamped to the nearest one inside. *)
Definition clamp (i n : Z) : Z := Z.max 0 (Z.min i (n - 1)).

Definition flat_index (dy dx k j i : Z) : nat := Z.to_nat ((k * dy + j) * dx + i).

Definition voxel (inp : list Q) (dy dx k j i : Z) : Q :=
  default 0%Q (inp !! flat_index dy dx k j i).

Definition offsets (radius : Z) : list Z :=
  map (fun n => Z.of_nat n - radius) (seq 0 (Z.to_nat (2 * radius + 1))).

(** Modelled from the spec: [median_kernel.cu] is missing; the
    [kernel_size^3] voxels around [(k, j, i)]. *)
Definition neighbourhood (inp : list Q) (dz dy dx radius k j i : Z) : list Q :=
  flat_map
    (fun dk =>
       flat_map
         (fun dj =>
            map (fun di =>
                   voxel inp dy dx (clamp (k + dk) dz) (clamp (j + dj) dy)
                     (clamp (i + di) dx))
              (offsets radius))
         (offsets radius))
    (offsets radius).

(** Modelled from the spec: [median_kernel.cu] is missing; the middle
    element of the sorted neighbourhood. *)
Definition median (l : list Q) : Q :=
  default 0%Q (merge_sort Qle l !! (length l / 2)%nat).

(** Modelled from the spec: [median_kernel.cu] is missing; the median
    replaces the voxel when [dif <= 0], or when the voxel differs from it
    by more than [dif]. *)
Definition dezinger (dif v m : Q) : Q :=
  if Qle_bool dif 0 then m
  else if Qlt_le_dec dif (Qabs (v - m)) then m
  else v.


(** Modelled from the spec: [median_kernel.cu] is missing; the value
    stored for voxel [(k, j, i)]. *)
Definition voxel_out (kernel_size : Z) (inp : list Q) (dif : Q)
    (dz dy dx k j i : Z) : Q :=
  dezinger dif (voxel inp dy dx k j i)
    (median (neighbourhood inp dz dy dx (kernel_size / 2) k j i)).

(** Modelled from the spec: [median_kernel.cu] is missing; one thread,
    identified by its global [(x, y, z)] index, writes the voxel it
    stands on and nothing when it stands outside the volume. *)
Definition median_general_kernel (kernel_size : Z) (inp : list Q) (dif : Q)
    (dz dy dx : Z) (out : list Q) (thread : Z * Z * Z) : list Q :=
  let '(i, j, k) := thread in
  if (i <? dx) && (j <? dy) && (k <? dz) then
    <[flat_index dy dx k j i := voxel_out kernel_size inp dif dz dy dx k j i]> out
  else out.

Definition zrange (n : Z) : list Z := map Z.of_nat (seq 0 (Z.to_nat n)).

(** The global indices of the threads of a launch. *)
Definition threads (grid block : Z * Z * Z) : list (Z * Z * Z) :=
  let '(gx, gy, gz) := grid in
  let '(bx, by_, bz) := block in
  flat_map (fun k =>
    flat_map (fun j =>
      map (fun i => (i, j, k)) (zrange (gx * bx)))
      (zrange (gy * by_)))
    (zrange (gz * bz)).

(** [median3d(grid_dims, block_dims, (data, out, dif, dz, dy, dx))] *)
Definition launch (median3d : kernel) (grid_dims block_dims : Z * Z * Z)
    (data out : ndarray) (dif : Q) (dz dy dx : Z) : M unit :=
  let* inp := read_buffer (base data) in
  let* buf := read_buffer (base out) in
  do emit [KernelLaunch (kname median3d) grid_dims block_dims] in
  write_buffer (base out)
    (fold_left (median_general_kernel (diameter median3d) inp dif dz dy dx)
       (threads grid_dims block_dims) buf).

(** *** [median_filter3d] and [remove_outlier3d]

    An argument left out by the caller is [None]; the body starts from
    the default. *)

Definition median_filter3d (data : ndarray) (kernel_size : option Z)
    (dif : option Q) : M ndarray :=
  let kernel_size := default 3 kernel_size in
  let dif := default 0%Q dif in
  let input_type := dtype data in
  if negb (bool_decide (Np.dtype_name input_type ∈ ["float32"; "uint16"])) then
    raise (Exn ValueError
             "The input data should be either float32 or uint16 data type" None)
  else
    do (if decide (ndim data = 3%nat) then
          if bool_decide (0 ∈ shape data) then
            raise (Exn ValueError
                     "The length of one of dimensions is equal to zero" None)
          else ret tt
        else raise (Exn ValueError "The input array must be a 3D array" None)) in
    if negb (bool_decide (kernel_size ∈ [3; 5; 7; 9; 11; 13])) then
      raise (Exn ValueError
               "Please select a correct kernel size: 3, 5, 7, 9, 11, 13" None)
    else
      let kernel_args :=
        "median_general_kernel<"
        +:+ (if bool_decide (Np.dtype_name input_type = "float32")
             then "float" else "unsigned short")
        +:+ ", " +:+ pretty kernel_size +:+ ">" in
      let* median3d := load_cuda_module "median_kernel" kernel_args kernel_size in
      let* out := cp_empty (shape data) input_type in
      match shape data with
      | [dz; dy; dx] =>
          let block_x := 128 in
          let block_dims := (block_x, 1, 1) in
          let grid_x := (dx + block_x - 1) / block_x in
          let grid_y := dy in
          let grid_z := dz in
          let grid_dims := (grid_x, grid_y, grid_z) in
          do launch median3d grid_dims block_dims data out dif dz dy dx in
          ret out
      | _ => raise (Exn ValueError "not enough values to unpack" None)
      end.

Definition remove_outlier3d (data : ndarray) (kernel_size : option Z)
    (dif : option Q) : M ndarray :=
  let kernel_size := default 3 kernel_size in
  let dif := default (1 # 10)%Q dif in
  median_filter3d data (Some kernel_size) (Some dif).

End Corr.

(** ** Concrete primitives and inputs for the examples *)

Module Examples.
Import Py World.

(** A square root that is exact on squares of rationals. *)
Definition sqrt_floor (q : Q) : Q := Z.sqrt (Qnum q) # Pos.sqrt (Qden q).

Definition pixel (input : list Q) (height width r c : Z) : Q :=
  default 0%Q
    (input !! Z.to_nat (Corr.clamp r height * width + Corr.clamp c width)).

(** Order-1 interpolation at [(y, x)]; for coordinates inside the image,
    where every boundary mode agrees. *)
Definition interp1 (input : list Q) (height width : Z) (y x : Q) : Q :=
  let y0 := Qfloor y in
  let x0 := Qfloor x in
  let fy := (y - inject_Z y0)%Q in
  let fx := (x - inject_Z x0)%Q in
  Qred ((1 - fy) * ((1 - fx) * pixel input height width y0 x0
                    + fx * pixel input height width y0 (x0 + 1))
        + fy * ((1 - fx) * pixel input height width (y0 + 1) x0
                + fx * pixel input height width (y0 + 1) (x0 + 1)))%Q.

Definition bilinear (input : list Q) (shape : list Z) (yd xd : list Q)
    (order : Z) (mode : string) : result (list Q) :=
  match shape with
  | [height; width] => Ok (zip_with (interp1 input height width) yd xd)
  | _ => Raise (Exn RuntimeError "invalid shape for coordinate array" None)
  end.

Definition coeff_file : string :=
  "xc 12.5" +:+ Alignment.nl +:+ "yc 7.25" +:+ Alignment.nl
  +:+ "f0 1.0" +:+ Alignment.nl +:+ "f1 0.0002" +:+ Alignment.nl.

(** Centre (1, 1), identity distortion. *)
Definition identity_file : string :=
  "xcenter 1.0" +:+ Alignment.nl +:+ "ycenter 1.0" +:+ Alignment.nl
  +:+ "factor0 1.0" +:+ Alignment.nl.

(** Centre (0, 0), every pixel mapped to the origin. *)
Definition collapse_file : string :=
  "xcenter 0.0" +:+ Alignment.nl +:+ "ycenter 0.0" +:+ Alignment.nl
  +:+ "factor0 0.0" +:+ Alignment.nl.

(** Centre (0, 0), every pixel taken from half its distance. *)
Definition half_file : string :=
  "xcenter 0.0" +:+ Alignment.nl +:+ "ycenter 0.0" +:+ Alignment.nl
  +:+ "factor0 0.5" +:+ Alignment.nl.

Definition files : gmap string fsnode :=
  {[ "coeff.txt" := RegularFile coeff_file;
     "half.txt" := RegularFile half_file;
     "identity.txt" := RegularFile identity_file;
     "collapse.txt" := RegularFile collapse_file;
     "secret.txt" := Unreadable ]}.

Definition q (z : Z) : Q := inject_Z z.

(** One store: a 1x4x4 volume at address 1, a 1x3x3 volume at 2, a 2x2
    image at 3, a 1x2x2 volume at 4. *)
Definition world0 : world :=
  World files
    {[ 1%positive := map q [1; 2; 3; 4; 5; 6; 7; 8; 9; 10; 11; 12; 13; 14; 15; 16];
       2%positive := map q [1; 2; 3; 4; 5; 6; 7; 8; 9];
       3%positive := map q [1; 2; 3; 4];
       4%positive := map q [10; 20; 30; 40] ]}
    [].

Definition vol144 : ndarray := NdArray 1%positive [1; 4; 4] Np.float32.
Definition vol133 : ndarray := NdArray 2%positive [1; 3; 3] Np.float32.
Definition img22 : ndarray := NdArray 3%positive [2; 2] Np.float32.
Definition vol122 : ndarray := NdArray 4%positive [1; 2; 2] Np.uint16.

Definition preview_full : gmap string (list Z) :=
  {[ "starts" := [0; 0]; "stops" := [4; 4]; "steps" := [1; 1] ]}.

Definition preview_step2 : gmap string (list Z) :=
  {[ "starts" := [0; 0]; "stops" := [2; 2]; "steps" := [2; 1] ]}.

End Examples.

(** ** The loops of the two correctors, and further example inputs *)

Module AlignmentParts.
Import Py World Alignment.

(** The body of the loop of [distortion_correction_proj] for slice [i]. *)
Definition unwarp_A
    (map_coordinates :
       list Q -> list Z -> list Q -> list Q -> Z -> string -> result (list Q))
    (data : ndarray) (height width crop : Z) (yd_mat xd_mat : list Q)
    (i : nat) : M unit :=
  World.bind (resample map_coordinates data i height width yd_mat xd_mat 1 "reflect")
    (fun mat_corrected =>
       let '(r0, nr) := slice_range crop (height - crop) height in
       let '(c0, nc) := slice_range crop (width - crop) width in
       setitem_slice data i height width
         (crop2d mat_corrected width r0 nr c0 nc) nr nc).

(** The body of the loop of [distortion_correction_proj_discorpy]. *)
Definition unwarp_B
    (map_coordinates :
       list Q -> list Z -> list Q -> list Q -> Z -> string -> result (list Q))
    (data : ndarray) (height width : Z) (yd_mat xd_mat : list Q)
    (order : Z) (mode : string) (i : nat) : M unit :=
  World.bind (resample map_coordinates data i height width yd_mat xd_mat order mode)
    (fun mat => setitem_slice data i height width mat height width).

End AlignmentParts.

Module MoreExamples.
Import Py World Alignment.

Definition blank_second_line : string :=
  "xc 1.0" +:+ nl +:+ "   " +:+ nl +:+ "f0 1.0" +:+ nl.

Definition bad_second_line : string :=
  "xc 1.0" +:+ nl +:+ "yc seven" +:+ nl +:+ "f0 oops" +:+ nl.

(** A volume of 3x3 slices without a slice, on an empty buffer. *)
Definition vol033 : ndarray := NdArray 6%positive [0; 3; 3] Np.float32.

Definition world_no_slices : world :=
  World Examples.files {[ 6%positive := [] ]} [].

End MoreExamples.

(** * Properties *)

(** ** The memory estimator *)

Module EstimatorFacts.
Import Np Estimator.

Lemma wrap64_id z : in_int64 z -> wrap64 z = z.
Proof.
  unfold in_int64, wrap64. intros Hz.
  rewrite Z.mod_small by lia. lia.
Qed.

Lemma in_int64_between lo hi z :
  in_int64 lo -> in_int64 hi -> lo <= z <= hi -> in_int64 z.
Proof. unfold in_int64. lia. Qed.

(** A quotient by a non-negative divisor is no larger in magnitude than
    the dividend. *)
Lemma div_in_int64 a b : 0 <= b -> in_int64 a -> in_int64 (a / b).
Proof.
  unfold in_int64. intros Hb Ha.
  destruct (Z.eq_dec b 0) as [->|Hb0].
  - rewrite Z.div_0_r. lia.
  - assert (0 < b) by lia.
    destruct (Z_le_gt_dec 0 a).
    + pose proof (Z.div_pos a b ltac:(lia) ltac:(lia)).
      pose proof (Z.div_le_upper_bound a b a ltac:(lia) ltac:(nia)). lia.
    + pose proof (Z.div_le_lower_bound a b a ltac:(lia) ltac:(nia)).
      pose proof (Z.div_lt_upper_bound a b 0 ltac:(lia) ltac:(lia)). lia.
Qed.

Lemma temporaries_total h w :
  let lists_size := (w + h) * float64_nbytes in
  let meshgrid_size := (w * h * 2) * float64_nbytes in
  let ru_mat_size := meshgrid_size / 2 in
  let xd_mat_size := ru_mat_size / 2 in
  lists_size + meshgrid_size + ru_mat_size + ru_mat_size * 2
  + xd_mat_size + xd_mat_size = 8 * (w + h) + 48 * (w * h)
  /\ (xd_mat_size + xd_mat_size) * 3 = 24 * (w * h).
Proof.
  cbv zeta. unfold float64_nbytes.
  replace (w * h * 2 * 8) with ((w * h * 8) * 2) by ring.
  rewrite Z.div_mul by lia.
  replace (w * h * 8) with ((w * h * 4) * 2) by ring.
  rewrite Z.div_mul by lia. lia.
Qed.

(** The estimator on inputs whose sizes fit [int64]. *)
Lemma max_slices_in_range h w dt avail :
  0 <= h -> 0 <= w -> 0 < itemsize dt ->
  in_int64 (fixed_overhead h w (itemsize dt)) ->
  in_int64 avail ->
  in_int64 (avail - fixed_overhead h w (itemsize dt)) ->
  _calc_max_slices_distortion_correction_proj (h, w) dt avail
  = ((avail - fixed_overhead h w (itemsize dt)) / (h * w * itemsize dt), dt, (h, w)).
Proof.
  intros Hh Hw Hi Ho Ha Hd.
  unfold _calc_max_slices_distortion_correction_proj, prod2, floordiv. cbn [fst snd].
  destruct (temporaries_total h w) as [E1 E2]. cbv zeta in E1, E2.
  set (isz := itemsize dt) in *.
  assert (Hhw : 0 <= h * w) by nia.
  assert (Hs : 0 <= h * w * isz) by nia.
  assert (Hb : h * w * isz <= fixed_overhead h w isz)
    by (unfold fixed_overhead; nia).
  assert (Hz : in_int64 0) by (unfold in_int64; lia).
  assert (Hwh : h * w <= h * w * isz) by nia.
  assert (Hbetween : forall z, 0 <= z <= fixed_overhead h w isz -> in_int64 z)
    by (intros z Hzr; apply (in_int64_between 0 (fixed_overhead h w isz)); auto).
  assert (Hfo : fixed_overhead h w isz
                = 8 * (w + h) + 72 * (w * h) + 4 * (h * w * isz)) by reflexivity.
  rewrite (wrap64_id (1 * h)) by (apply Hbetween; nia).
  rewrite (wrap64_id (1 * h * w)) by (apply Hbetween; nia).
  rewrite (wrap64_id (1 * h * w * isz)) by (apply Hbetween; nia).
  rewrite (wrap64_id (1 * h * w * isz * 4)) by (apply Hbetween; nia).
  rewrite E1, E2.
  replace (8 * (w + h) + 48 * (w * h) + 1 * h * w * isz * 4)
    with (fixed_overhead h w isz - 24 * (w * h)) by (unfold fixed_overhead; ring).
  rewrite (wrap64_id (fixed_overhead h w isz - 24 * (w * h)))
    by (apply Hbetween; nia).
  replace (fixed_overhead h w isz - 24 * (w * h) + 24 * (w * h))
    with (fixed_overhead h w isz) by ring.
  rewrite (wrap64_id (fixed_overhead h w isz)) by assumption.
  rewrite (wrap64_id (avail - fixed_overhead h w isz)) by assumption.
  replace (1 * h * w * isz) with (h * w * isz) by ring.
  rewrite wrap64_id by (apply div_in_int64; assumption).
  reflexivity.
Qed.

(** C1, as amended: on sizes that fit [int64] the estimator returns
    [floor((available_bytes - overhead) / (H*W*itemsize))], the overhead
    [8(H+W) + 72*H*W + 4*H*W*itemsize] holding the four slice-sized
    temporaries, the divisor being one slice; the quotient is returned as
    it is, so it is negative whenever the overhead exceeds the available
    bytes of a non-empty slice. *)
Theorem C1_max_slices_unclamped_single_slice_divisor h w dt avail :
  0 <= h -> 0 <= w -> 0 < itemsize dt ->
  in_int64 (fixed_overhead h w (itemsize dt)) ->
  in_int64 avail ->
  in_int64 (avail - fixed_overhead h w (itemsize dt)) ->
  _calc_max_slices_distortion_correction_proj (h, w) dt avail
  = ((avail - fixed_overhead h w (itemsize dt)) / (h * w * itemsize dt), dt, (h, w))
  /\ (0 < h * w -> avail < fixed_overhead h w (itemsize dt) ->
      fst (fst (_calc_max_slices_distortion_correction_proj (h, w) dt avail)) < 0).
Proof.
  intros Hh Hw Hi Ho Ha Hd.
  rewrite max_slices_in_range by assumption. split; [reflexivity|].
  cbn [fst]. intros Hhw Hlt.
  apply Z.div_lt_upper_bound; nia.
Qed.

Lemma C1_max_slices_witness :
  _calc_max_slices_distortion_correction_proj (111, 121) float32 100000000
  = (1839, float32, (111, 121))
  /\ fst (fst (_calc_max_slices_distortion_correction_proj (111, 121) float32 1000)) < 0.
Proof.
  pose proof (C1_max_slices_unclamped_single_slice_divisor 111 121 float32 100000000
                ltac:(lia) ltac:(lia) ltac:(reflexivity)
                ltac:(vm_compute; split; [discriminate | reflexivity])
                ltac:(vm_compute; split; [discriminate | reflexivity])
                ltac:(vm_compute; split; [discriminate | reflexivity])) as [E _].
  pose proof (C1_max_slices_unclamped_single_slice_divisor 111 121 float32 1000
                ltac:(lia) ltac:(lia) ltac:(reflexivity)
                ltac:(vm_compute; split; [discriminate | reflexivity])
                ltac:(vm_compute; split; [discriminate | reflexivity])
                ltac:(vm_compute; split; [discriminate | reflexivity])) as [_ N].
  split; [exact E | apply N; reflexivity].
Defined.

(** C1 as stated fails: for a 1x1 float32 slice no overhead value makes
    the estimate the clamped quotient by four slices; with nothing
    available the code returns -26. *)
Lemma C1_counterexample :
  ~ exists overhead, forall avail,
      fst (fst (_calc_max_slices_distortion_correction_proj (1, 1) float32 avail))
      = spec_max_slices overhead 1 1 (itemsize float32) avail.
Proof.
  intros [o H]. specialize (H 0).
  assert (E : fst (fst (_calc_max_slices_distortion_correction_proj (1, 1) float32 0)) = -26)
    by reflexivity.
  rewrite E in H. unfold spec_max_slices in H. lia.
Qed.

(** Where the estimate is positive the clamp plays no part, and the
    divisor still is one slice: twelve more bytes buy three more 4-byte
    slices, which no quotient by 16 allows. *)
Lemma divisor_is_one_slice :
  ~ exists overhead, forall avail, 104 <= avail <= 116 ->
      fst (fst (_calc_max_slices_distortion_correction_proj (1, 1) float32 avail))
      = spec_max_slices overhead 1 1 (itemsize float32) avail.
Proof.
  intros [o H].
  pose proof (H 104 ltac:(lia)) as H0. pose proof (H 116 ltac:(lia)) as H1.
  assert (E0 : fst (fst (_calc_max_slices_distortion_correction_proj (1, 1) float32 104)) = 0)
    by reflexivity.
  assert (E1 : fst (fst (_calc_max_slices_distortion_correction_proj (1, 1) float32 116)) = 3)
    by reflexivity.
  rewrite E0 in H0. rewrite E1 in H1. unfold spec_max_slices in *.
  cbn [itemsize float32] in *.
  change (1 * 1 * 4 * 4) with 16 in *.
  pose proof (Z.div_mod (104 - o) 16 ltac:(lia)).
  pose proof (Z.div_mod (116 - o) 16 ltac:(lia)).
  pose proof (Z.mod_pos_bound (104 - o) 16 ltac:(lia)).
  pose proof (Z.mod_pos_bound (116 - o) 16 ltac:(lia)).
  lia.
Qed.

End EstimatorFacts.

(** ** The effect monad *)

Module WorldFacts.
Import Py World.

Lemma bind_Ok {A B} (m : M A) (k : A -> M B) w a w' :
  m w = (Ok a, w') -> bind m k w = k a w'.
Proof. unfold bind. intros ->. reflexivity. Qed.

Lemma bind_Raise {A B} (m : M A) (k : A -> M B) w e w' :
  m w = (Raise e, w') -> bind m k w = (Raise e, w').
Proof. unfold bind. intros ->. reflexivity. Qed.

Lemma bind_lift_Ok {A B} (r : result A) (k : A -> M B) w a :
  r = Ok a -> bind (lift r) k w = k a w.
Proof. intros ->. reflexivity. Qed.

Lemma device_events_app t u :
  device_events (t ++ u) = device_events t ++ device_events u.
Proof. unfold device_events. induction t as [|e t IH]; cbn; [reflexivity|]. destruct (is_device_event e); cbn; congruence. Qed.

Lemma host_only_refl w : host_only w w.
Proof. repeat split. Qed.

Lemma host_only_trans w1 w2 w3 : host_only w1 w2 -> host_only w2 w3 -> host_only w1 w3.
Proof. unfold host_only. intros (?&?&?) (?&?&?). repeat split; congruence. Qed.

End WorldFacts.

(** ** The metadata loader *)

Module LoaderFacts.
Import Py World WorldFacts Alignment.

Section Loader.

Variable py_float : string -> option Q.

Lemma open_read_host_only path w r w' :
  open_read path w = (r, w') -> host_only w w'.
Proof.
  unfold open_read. destruct path as [p|]; [|intros [= <- <-]; apply host_only_refl].
  destruct (fs w !! p) as [[text| |]|]; intros [= <- <-]; try apply host_only_refl.
  repeat split. cbn. rewrite device_events_app. cbn. apply app_nil_r.
Qed.

Lemma load_host_only path w r w' :
  _load_metadata_txt py_float path w = (r, w') -> host_only w w'.
Proof.
  unfold _load_metadata_txt, bind.
  destruct (open_read path w) as [[text|e] w1] eqn:Ho.
  - apply open_read_host_only in Ho.
    unfold lift. destruct (parse_lines _ _ _) as [l|e]; [|intros [= <- <-]; exact Ho].
    destruct (getitem l 0); [|intros [= <- <-]; exact Ho].
    destruct (getitem l 1); intros [= <- <-]; exact Ho.
  - apply open_read_host_only in Ho. intros [= <- <-]. exact Ho.
Qed.

Lemma load_None w :
  _load_metadata_txt py_float None w
  = (Raise (Exn TypeError
              "expected str, bytes or os.PathLike object, not NoneType" None), w).
Proof. reflexivity. Qed.

(** A path that names no readable file: the loader lets the error of
    [open] through as it is. *)
Lemma load_unreadable p w :
  fs w !! p = None \/ fs w !! p = Some Unreadable ->
  exists e, _load_metadata_txt py_float (Some p) w = (Raise e, w)
            /\ is_IOError (exn_cls e) = true /\ exn_cause e = None.
Proof.
  unfold _load_metadata_txt, bind, open_read.
  intros [-> | ->]; eexists; repeat split.
Qed.

(** The loop appends the value of each line's last token, in order. *)
Lemma parse_lines_Forall2 lines vals acc :
  Forall2 (fun line v => exists tok, last (split line) = Some tok
                                     /\ py_float tok = Some v) lines vals ->
  parse_lines py_float lines acc = Ok (acc ++ vals).
Proof.
  intros H. revert acc.
  induction H as [|line v lines vals (tok & Hl & Hf) _ IH]; intros acc; cbn.
  - now rewrite app_nil_r.
  - unfold getitem_last. rewrite Hl, Hf, IH, <- app_assoc. reflexivity.
Qed.

(** The loop fails at the first line without a readable last token. *)
Lemma parse_lines_blank lines acc :
  In EmptyString lines -> exists e, parse_lines py_float lines acc = Raise e.
Proof.
  revert acc. induction lines as [|l lines IH]; intros acc; [intros []|].
  intros [-> | Hin]; cbn.
  - eexists; reflexivity.
  - destruct (getitem_last (split l)); [|eauto].
    destruct (py_float a); eauto.
Qed.

(** C9: when every line of the file ends in a token that [float] reads,
    the loader returns the value of the first line's last token as
    x-centre, of the second line's as y-centre, and those of the remaining
    lines, in file order, as the coefficients.  Lines and tokens are those
    of [str.splitlines] and [str.split] on text of code points below
    256. *)
Theorem C9_loader_returns_last_tokens w path text x y coeffs :
  fs w !! path = Some (RegularFile text) ->
  Forall2 (fun line v => exists tok, last (split line) = Some tok
                                     /\ py_float tok = Some v)
    (splitlines (translate_newlines text)) (x :: y :: coeffs) ->
  fst (_load_metadata_txt py_float (Some path) w) = Ok (x, y, coeffs).
Proof.
  intros Hfs Hlines.
  unfold _load_metadata_txt, bind, open_read. rewrite Hfs.
  unfold lift. rewrite (parse_lines_Forall2 _ _ [] Hlines). reflexivity.
Qed.

(** Fewer than two lines: indexing [list_data] raises. *)
Lemma load_short_file w path text :
  fs w !! path = Some (RegularFile text) ->
  (length (splitlines (translate_newlines text)) < 2)%nat ->
  is_Raise (fst (_load_metadata_txt py_float (Some path) w)) = true.
Proof.
  intros Hfs Hlen.
  unfold _load_metadata_txt, bind, open_read. rewrite Hfs. unfold lift.
  destruct (parse_lines _ _ _) as [l|e] eqn:Hp; [|reflexivity].
  assert (Hl : (length l <= length (splitlines (translate_newlines text)))%nat).
  { change l with ([] ++ l) in Hp.
    assert (G : forall lines acc out, parse_lines py_float lines acc = Ok out ->
              (length out <= length acc + length lines)%nat).
    { clear. induction lines as [|i lines IH]; intros acc out; cbn.
      - intros [= <-]. lia.
      - destruct (getitem_last (split i)); [|discriminate].
        destruct (py_float a); [|discriminate].
        intros H. apply IH in H. rewrite length_app in H. cbn in H. lia. }
    apply G in Hp. cbn in Hp. exact Hp. }
  unfold getitem.
  destruct l as [|a [|b l]]; cbn in *; try reflexivity. lia.
Qed.

End Loader.

(** The coefficient file of the specification's example, read with the
    decimal parser: the values are the decimals as they are written. *)
Lemma C9_loader_witness :
  fst (_load_metadata_txt Decimal.decimal_float (Some "coeff.txt") Examples.world0)
  = Ok (25 # 2, 29 # 4, [1 # 1; 1 # 5000])%Q.
Proof.
  apply (C9_loader_returns_last_tokens Decimal.decimal_float Examples.world0
           "coeff.txt" Examples.coeff_file).
  - reflexivity.
  - replace (splitlines (translate_newlines Examples.coeff_file))
      with ["xc 12.5"; "yc 7.25"; "f0 1.0"; "f1 0.0002"] by reflexivity.
    repeat (constructor; [eexists; split; reflexivity|]).
    constructor.
Defined.

End LoaderFacts.

(** ** The two distortion correctors: failures *)

Module AlignmentFacts.
Import Py World WorldFacts Alignment LoaderFacts.

Section Correctors.

Variable py_float : string -> option Q.
Variable cp_sqrt : Q -> Q.
Variable map_coordinates :
  list Q -> list Z -> list Q -> list Q -> Z -> string -> result (list Q).

(** Whatever the first statements of both variants do, they do on the
    host: the 2D promotion is a view and the loader only reads a file. *)
Lemma variant_A_load_fails data path preview cl ct coeffs crop w e w' :
  _load_metadata_txt py_float path w = (Raise e, w') ->
  distortion_correction_proj py_float cp_sqrt map_coordinates data path preview cl ct coeffs crop w = (Raise e, w').
Proof. intros H. unfold distortion_correction_proj. now rewrite (bind_Raise _ _ _ _ _ H). Qed.

Lemma variant_B_load_fails data path preview order mode w e w' :
  _load_metadata_txt py_float path w = (Raise e, w') ->
  distortion_correction_proj_discorpy py_float cp_sqrt map_coordinates data path preview order mode w = (Raise e, w').
Proof. intros H. unfold distortion_correction_proj_discorpy. now rewrite (bind_Raise _ _ _ _ _ H). Qed.

(** The opening [_load_metadata_txt(metadata_path)] of variant A runs
    before [metadata_path is None] is looked at, and [open(None)] raises:
    the branch that takes the centre from the parameters is never
    reached. *)
Lemma metadata_none_raises data preview cl ct coeffs crop w :
  distortion_correction_proj py_float cp_sqrt map_coordinates data None preview cl ct coeffs crop w
  = (Raise (Exn TypeError
              "expected str, bytes or os.PathLike object, not NoneType" None), w).
Proof. apply variant_A_load_fails, load_None. Qed.

(** C3 on the code: with [metadata_path] left [None] and centre and
    coefficients supplied, variant A raises the [TypeError] of
    [open(None)] and touches nothing. *)
Theorem C3_none_metadata_path_raises data preview center_from_left center_from_top
    polynomial_coeffs crop w :
  distortion_correction_proj py_float cp_sqrt map_coordinates data None preview (Some center_from_left) (Some center_from_top)
    (Some polynomial_coeffs) crop w
  = (Raise (Exn TypeError
              "expected str, bytes or os.PathLike object, not NoneType" None), w).
Proof. apply variant_A_load_fails, load_None. Qed.

(** A missing or unreadable file: both variants end with the error of
    [open], a bare [IOError] without a cause. *)
Lemma unreadable_file_raw_error data path preview cl ct coeffs crop order mode w :
  fs w !! path = None \/ fs w !! path = Some Unreadable ->
  exists e,
    distortion_correction_proj py_float cp_sqrt map_coordinates data (Some path) preview cl ct coeffs crop w = (Raise e, w)
    /\ distortion_correction_proj_discorpy py_float cp_sqrt map_coordinates data (Some path) preview order mode w = (Raise e, w)
    /\ is_IOError (exn_cls e) = true /\ exn_cause e = None.
Proof.
  intros H. destruct (load_unreadable py_float path w H) as (e & Hl & Hio & Hc).
  exists e. split; [|split; [|split]]; try assumption.
  - now apply variant_A_load_fails.
  - now apply variant_B_load_fails.
Qed.

(** The common prefix of both variants up to the step check. *)
Lemma step_check_raises {A} preview step (k : list Z -> list Z -> M A) w :
  preview !! "steps" = Some step ->
  (exists s, step !! 1%nat = Some s /\ 1 < s)
  \/ (exists s, step !! 0%nat = Some s /\ 1 < s) ->
  exists e,
    bind (dict_getitem preview "starts") (fun shift =>
      bind (dict_getitem preview "steps") (fun step =>
        bind (lift (getitem step 1)) (fun step_x =>
          bind (lift (getitem step 0)) (fun step_y =>
            if 1 <? Z.max step_x step_y
            then raise (Exn ValueError step_msg None)
            else k shift step)))) w
    = (Raise e, w).
Proof.
  intros Hst Hgt. unfold bind, dict_getitem, lift, getitem, raise, ret.
  destruct (preview !! "starts") as [shift|]; [|eexists; reflexivity].
  rewrite Hst.
  destruct (step !! 1%nat) as [sx|] eqn:Hx; [|eexists; reflexivity].
  destruct (step !! 0%nat) as [sy|] eqn:Hy; [|eexists; reflexivity].
  assert (Hm : (1 <? Z.max sx sy) = true).
  { apply Z.ltb_lt. destruct Hgt as [(s & [= <-] & ?) | (s & [= <-] & ?)]; lia. }
  rewrite Hm. eexists; reflexivity.
Qed.

(** C7: a preview step above 1 on a spatial axis makes both variants
    raise, and at that point the accelerator has seen nothing: no
    buffer changed and no device event was added to the trace. *)
Theorem C7_step_above_one_raises_before_device data path preview step
    cl ct coeffs crop order mode w :
  preview !! "steps" = Some step ->
  (exists s, step !! 1%nat = Some s /\ 1 < s)
  \/ (exists s, step !! 0%nat = Some s /\ 1 < s) ->
  (exists e w', distortion_correction_proj py_float cp_sqrt map_coordinates data path preview cl ct coeffs crop w = (Raise e, w')
                /\ heap w' = heap w
                /\ device_events (trace w') = device_events (trace w))
  /\ (exists e w', distortion_correction_proj_discorpy py_float cp_sqrt map_coordinates data path preview order mode w = (Raise e, w')
                   /\ heap w' = heap w
                   /\ device_events (trace w') = device_events (trace w)).
Proof.
  intros Hst Hgt.
  destruct (_load_metadata_txt py_float path w) as [[[[xc yc] lf]|e] w1] eqn:Hl;
    pose proof (load_host_only _ _ _ _ _ Hl) as (_ & Hh & Hd).
  - split.
    + unfold distortion_correction_proj. rewrite (bind_Ok _ _ _ _ _ Hl).
      edestruct (step_check_raises (A:=ndarray) preview step) as [e He];
        [exact Hst | exact Hgt |].
      exists e, w1. split; [exact He | split; assumption].
    + unfold distortion_correction_proj_discorpy. rewrite (bind_Ok _ _ _ _ _ Hl).
      edestruct (step_check_raises (A:=ndarray) preview step) as [e He];
        [exact Hst | exact Hgt |].
      exists e, w1. split; [exact He | split; assumption].
  - split; exists e, w1; (split; [|split; assumption]).
    + now apply variant_A_load_fails.
    + now apply variant_B_load_fails.
Qed.

End Correctors.

Import Examples.

(** A 2x2 image with preview steps [2, 1]. *)
Lemma C7_step_witness :
  (exists e w', distortion_correction_proj Decimal.decimal_float sqrt_floor bilinear img22 (Some "collapse.txt") preview_step2 None None None 0 world0
                = (Raise e, w')
                /\ heap w' = heap world0
                /\ device_events (trace w') = device_events (trace world0))
  /\ (exists e w', distortion_correction_proj_discorpy Decimal.decimal_float sqrt_floor bilinear img22 (Some "collapse.txt") preview_step2 1 "reflect" world0
                   = (Raise e, w')
                   /\ heap w' = heap world0
                   /\ device_events (trace w') = device_events (trace world0)).
Proof.
  apply (C7_step_above_one_raises_before_device Decimal.decimal_float sqrt_floor bilinear
           img22 (Some "collapse.txt") preview_step2 [2; 1]).
  - reflexivity.
  - right. exists 2. split; [reflexivity | lia].
Defined.

(** C5 on the code: for the missing ["nope.txt"] and the unreadable
    ["secret.txt"] both variants end with the bare error of [open]
    ([FileNotFoundError], [PermissionError]): no descriptive [ValueError],
    no cause attached. *)
Theorem C5_unreadable_file_unchained_error :
  distortion_correction_proj Decimal.decimal_float sqrt_floor bilinear vol144 (Some "nope.txt") preview_full None None None 0 world0
  = (Raise (Exn FileNotFoundError
              "[Errno 2] No such file or directory: 'nope.txt'" None), world0)
  /\ distortion_correction_proj_discorpy Decimal.decimal_float sqrt_floor bilinear vol144 (Some "nope.txt") preview_full 1 "reflect" world0
     = (Raise (Exn FileNotFoundError
                 "[Errno 2] No such file or directory: 'nope.txt'" None), world0)
  /\ distortion_correction_proj Decimal.decimal_float sqrt_floor bilinear vol144 (Some "secret.txt") preview_full None None None 0 world0
     = (Raise (Exn PermissionError
                 "[Errno 13] Permission denied: 'secret.txt'" None), world0)
  /\ distortion_correction_proj_discorpy Decimal.decimal_float sqrt_floor bilinear vol144 (Some "secret.txt") preview_full 1 "reflect" world0
     = (Raise (Exn PermissionError
                 "[Errno 13] Permission denied: 'secret.txt'" None), world0).
Proof. repeat split; vm_compute; reflexivity. Qed.

(** C2 on the code: with [crop = 1] a 1x4x4 volume makes the slice
    assignment fail (a 2x2 block does not broadcast into the 4x4 slice),
    and a 1x3x3 volume comes back with its 3x3 slice shape, the single
    cropped value spread over the whole slice. *)
Theorem C2_crop_keeps_slice_shape :
  fst (distortion_correction_proj Decimal.decimal_float sqrt_floor bilinear vol144 (Some "identity.txt") preview_full None None None 1 world0)
  = Raise (Exn ValueError
             "could not broadcast input array from shape (2,2) into shape (4,4)" None)
  /\ (let '(r, w') :=
        distortion_correction_proj Decimal.decimal_float sqrt_floor bilinear vol133 (Some "identity.txt") preview_full None None None 1 world0 in
      r = Ok vol133 /\ shape vol133 = [1; 3; 3]
      /\ heap w' !! base vol133 = Some (map q [5; 5; 5; 5; 5; 5; 5; 5; 5])).
Proof. split; vm_compute; repeat split; reflexivity. Qed.

End AlignmentFacts.

(** ** The median filter: validation and the dezinger wrapper *)

Module CorrFacts.
Import Py World WorldFacts Corr.

(** C8: [median_filter3d] checks the element type, then the number of
    axes and the absence of a zero-length axis, then the kernel size; the
    first check that fails raises, and the world is as it was: nothing
    was compiled, allocated or launched. *)
Theorem C8_validation_order data kernel_size dif w :
  let ok_dtype := Np.dtype_name (dtype data) ∈ ["float32"; "uint16"] in
  let ok_size := default 3 kernel_size ∈ [3; 5; 7; 9; 11; 13] in
  (~ ok_dtype ->
   median_filter3d data kernel_size dif w
   = (Raise (Exn ValueError
               "The input data should be either float32 or uint16 data type" None), w))
  /\ (ok_dtype -> ndim data <> 3%nat ->
      median_filter3d data kernel_size dif w
      = (Raise (Exn ValueError "The input array must be a 3D array" None), w))
  /\ (ok_dtype -> ndim data = 3%nat -> 0 ∈ shape data ->
      median_filter3d data kernel_size dif w
      = (Raise (Exn ValueError
                  "The length of one of dimensions is equal to zero" None), w))
  /\ (ok_dtype -> ndim data = 3%nat -> 0 ∉ shape data -> ~ ok_size ->
      median_filter3d data kernel_size dif w
      = (Raise (Exn ValueError
                  "Please select a correct kernel size: 3, 5, 7, 9, 11, 13" None), w)).
Proof.
  cbv zeta. unfold median_filter3d.
  repeat split.
  - intros Hd. rewrite bool_decide_eq_false_2 by assumption. reflexivity.
  - intros Hd Hn. rewrite bool_decide_eq_true_2 by assumption. cbn [negb].
    unfold bind. destruct (decide (ndim data = 3%nat)); [contradiction|reflexivity].
  - intros Hd Hn Hz. rewrite bool_decide_eq_true_2 by assumption. cbn [negb].
    unfold bind. destruct (decide (ndim data = 3%nat)); [|contradiction].
    rewrite bool_decide_eq_true_2 by assumption. reflexivity.
  - intros Hd Hn Hz Hk. rewrite bool_decide_eq_true_2 by assumption. cbn [negb].
    unfold bind. destruct (decide (ndim data = 3%nat)); [|contradiction].
    rewrite (bool_decide_eq_false_2 (0 ∈ shape data)) by assumption.
    unfold ret. rewrite bool_decide_eq_false_2 by assumption. reflexivity.
Qed.

(** A float64 image fails on its type although its rank and the kernel
    size are wrong too; a float32 image fails on its rank although the
    kernel size is wrong too. *)
Lemma C8_validation_witness :
  median_filter3d (NdArray 3%positive [2; 2] Np.float64) (Some 4) None Examples.world0
  = (Raise (Exn ValueError
              "The input data should be either float32 or uint16 data type" None),
     Examples.world0)
  /\ median_filter3d Examples.img22 (Some 4) None Examples.world0
     = (Raise (Exn ValueError "The input array must be a 3D array" None),
        Examples.world0)
  /\ median_filter3d (NdArray 3%positive [1; 0; 4] Np.uint16) (Some 4) None Examples.world0
     = (Raise (Exn ValueError
                 "The length of one of dimensions is equal to zero" None),
        Examples.world0)
  /\ median_filter3d Examples.vol122 (Some 4) None Examples.world0
     = (Raise (Exn ValueError
                 "Please select a correct kernel size: 3, 5, 7, 9, 11, 13" None),
        Examples.world0).
Proof.
  split; [|split; [|split]].
  - apply (C8_validation_order (NdArray 3%positive [2; 2] Np.float64) (Some 4) None).
    vm_compute. intros H. repeat (apply elem_of_cons in H as [H|H]; [discriminate|]).
    now apply elem_of_nil in H.
  - apply (C8_validation_order Examples.img22 (Some 4) None).
    + apply list_elem_of_here.
    + discriminate.
  - apply (C8_validation_order (NdArray 3%positive [1; 0; 4] Np.uint16) (Some 4) None).
    + apply list_elem_of_further, list_elem_of_here.
    + reflexivity.
    + apply list_elem_of_further, list_elem_of_here.
  - apply (C8_validation_order Examples.vol122 (Some 4) None).
    + apply list_elem_of_further, list_elem_of_here.
    + reflexivity.
    + vm_compute. intros H. repeat (apply elem_of_cons in H as [H|H]; [discriminate|]).
      now apply elem_of_nil in H.
    + vm_compute. intros H. repeat (apply elem_of_cons in H as [H|H]; [discriminate|]).
      now apply elem_of_nil in H.
Defined.

(** C10: [remove_outlier3d] is [median_filter3d] on the same arguments;
    only the value taken for an omitted [dif] differs, 0.1 against 0. *)
Theorem C10_remove_outlier_is_median_filter data kernel_size dif w :
  remove_outlier3d data kernel_size dif w
  = median_filter3d data kernel_size (Some (default (1 # 10)%Q dif)) w
  /\ median_filter3d data kernel_size dif w
     = median_filter3d data kernel_size (Some (default 0%Q dif)) w
  /\ ~ (1 # 10 == 0)%Q.
Proof.
  split; [|split].
  - unfold remove_outlier3d, median_filter3d. destruct kernel_size; reflexivity.
  - unfold median_filter3d. destruct dif; reflexivity.
  - intros H. discriminate H.
Qed.

End CorrFacts.

(** ** Lists of rows *)

Module ListFacts.

Lemma length_flat_map_const {A B} (f : A -> list B) (ys : list A) n :
  (forall y, length (f y) = n) -> length (flat_map f ys) = (length ys * n)%nat.
Proof.
  intros Hf. induction ys as [|y ys IH]; cbn; [reflexivity|].
  rewrite length_app, Hf, IH. reflexivity.
Qed.


End ListFacts.

(** ** The median kernel over a launch *)

Module KernelFacts.
Import Py World WorldFacts Corr.







Section Launch.

Variables (kernel_size : Z) (inp : list Q) (dif : Q) (dz dy dx : Z).





End Launch.

(** *** The median is a voxel of the volume *)







End KernelFacts.

(** ** The median filter on a well-formed volume *)

Module MedianFacts.
Import Py World WorldFacts Corr ListFacts KernelFacts.


















End MedianFacts.

(** ** Which buffers a call writes *)

Module FrameFacts.
Import Py World WorldFacts Alignment LoaderFacts.

Lemma writes_only_refl a w : writes_only a w w.
Proof. split; auto. Qed.

Lemma writes_only_trans a w1 w2 w3 :
  writes_only a w1 w2 -> writes_only a w2 w3 -> writes_only a w1 w3.
Proof.
  intros [F1 H1] [F2 H2]. split; [congruence|].
  intros b Hb. rewrite H2, H1 by assumption. reflexivity.
Qed.

Lemma host_only_writes_only a w w' : host_only w w' -> writes_only a w w'.
Proof. intros (F & H & _). split; [exact F|]. intros b _. now rewrite H. Qed.

Lemma confined_weaken {A} a (P Q : A -> Prop) m :
  (forall x, P x -> Q x) -> confined a P m -> confined a Q m.
Proof. intros HPQ Hm w r w' E. destruct (Hm w r w' E) as [Hw HP]. split; auto. Qed.

Lemma confined_bind {A B} a (P : B -> Prop) (m : M A) (k : A -> M B) :
  confined a (fun _ => True) m -> (forall x, confined a P (k x)) ->
  confined a P (bind m k).
Proof.
  intros Hm Hk w r w'. unfold bind.
  destruct (m w) as [[x|e] w1] eqn:E; destruct (Hm _ _ _ E) as [Hw1 _].
  - intros E2. destruct (Hk x _ _ _ E2) as [Hw2 HP].
    split; [eapply writes_only_trans; eassumption | exact HP].
  - intros [= <- <-]. split; [exact Hw1 | discriminate].
Qed.

Lemma confined_ret {A} a (P : A -> Prop) x : P x -> confined a P (ret x).
Proof. intros HP w r w' [= <- <-]. split; [apply writes_only_refl|]. now intros y [= <-]. Qed.

Lemma confined_raise {A} a (P : A -> Prop) e : confined a P (raise e).
Proof. intros w r w' [= <- <-]. split; [apply writes_only_refl | discriminate]. Qed.

Lemma confined_lift {A} a (r : result A) : confined a (fun _ => True) (lift r).
Proof. intros w r' w' [= <- <-]. split; [apply writes_only_refl | auto]. Qed.

Lemma confined_emit a evs : confined a (fun _ => True) (emit evs).
Proof. intros w r w' [= <- <-]. split; [split; auto | auto]. Qed.

Lemma confined_read_buffer a b : confined a (fun _ => True) (read_buffer b).
Proof. intros w r w' [= <- <-]. split; [apply writes_only_refl | auto]. Qed.

Lemma confined_write_buffer a buf : confined a (fun _ => True) (write_buffer a buf).
Proof.
  intros w r w' [= <- <-]. split; [|auto]. split; [reflexivity|].
  intros b Hb. cbn. now rewrite lookup_insert_ne by congruence.
Qed.

Lemma confined_isfile a p : confined a (fun _ => True) (isfile p).
Proof. intros w r w' [= <- <-]. split; [apply writes_only_refl | auto]. Qed.

Lemma confined_dict_getitem a d key : confined a (fun _ => True) (dict_getitem d key).
Proof.
  unfold dict_getitem. destruct (d !! key); [now apply confined_ret | apply confined_raise].
Qed.

Lemma confined_except_IOError {A} a (P : A -> Prop) m h :
  confined a P m -> (forall e, confined a P (h e)) ->
  confined a P (except_IOError m h).
Proof.
  intros Hm Hh w r w'. unfold except_IOError.
  destruct (m w) as [[x|e] w1] eqn:E; destruct (Hm _ _ _ E) as [Hw1 HP].
  - intros [= <- <-]. split; assumption.
  - destruct (is_IOError (exn_cls e)).
    + intros E2. destruct (Hh e _ _ _ E2) as [Hw2 HP2].
      split; [eapply writes_only_trans; eassumption | exact HP2].
    + intros [= <- <-]. split; assumption.
Qed.

Lemma confined_for_range a body start count :
  (forall i, confined a (fun _ => True) (body i)) ->
  confined a (fun _ => True) (for_range body start count).
Proof.
  intros Hb. revert start. induction count as [|n IH]; intros start; cbn.
  - now apply confined_ret.
  - apply confined_bind; [apply Hb | intros _; apply IH].
Qed.

Create HintDb frame.

#[local] Hint Resolve confined_ret confined_raise confined_lift confined_emit
  confined_read_buffer confined_write_buffer confined_isfile
  confined_dict_getitem : frame.

(** One step through the body of a computation. *)
Ltac frame_step :=
  lazymatch goal with
  | |- confined _ _ (bind _ _) => apply confined_bind; [|intros ?]
  | |- confined _ _ (except_IOError _ _) => apply confined_except_IOError; [|intros ?]
  | |- confined _ _ (for_range _ _ _) => apply confined_for_range; intros ?
  | |- confined _ _ (if ?b then _ else _) => destruct b
  | |- confined _ _ (match ?x with _ => _ end) => destruct x
  | |- confined _ _ _ => solve [auto with frame]
  end.

Section Correctors.

Variable py_float : string -> option Q.
Variable cp_sqrt : Q -> Q.
Variable map_coordinates :
  list Q -> list Z -> list Q -> list Q -> Z -> string -> result (list Q).

Lemma confined_load a path :
  confined a (fun _ => True) (_load_metadata_txt py_float path).
Proof.
  intros w r w' E. split; [|auto].
  eapply host_only_writes_only, load_host_only, E.
Qed.

Lemma confined_resample a data i height width yd xd order mode :
  confined a (fun _ => True)
    (resample map_coordinates data i height width yd xd order mode).
Proof. unfold resample. repeat frame_step. Qed.

Lemma confined_setitem_slice data i height width v nr nc :
  confined (base data) (fun _ => True) (setitem_slice data i height width v nr nc).
Proof. unfold setitem_slice. repeat frame_step. Qed.

Lemma confined_cp_asarray a what value :
  confined a (fun _ => True) (cp_asarray what value).
Proof. unfold cp_asarray. repeat frame_step. Qed.

Lemma confined_cp_float32_tuple a coeffs :
  confined a (fun _ => True) (cp_float32_tuple coeffs).
Proof. unfold cp_float32_tuple. repeat frame_step. Qed.

Lemma confined_spread a yd : confined a (fun _ => True) (spread yd).
Proof. unfold spread. repeat frame_step. Qed.

#[local] Hint Resolve confined_load confined_resample confined_setitem_slice
  confined_cp_asarray confined_cp_float32_tuple confined_spread : frame.

Lemma expand_dims_base data : base (expand_dims data) = base data.
Proof. reflexivity. Qed.

Lemma promoted_base data : base (promoted data) = base data.
Proof. unfold promoted. now destruct (decide _). Qed.



End Correctors.

End FrameFacts.

(** ** Output buffers *)

Module OutputFacts.
Import Py World WorldFacts Alignment Corr FrameFacts.



Import Examples.



End OutputFacts.

(** ** More on the memory estimator *)

Module EstimatorMore.
Import Np Estimator EstimatorFacts.

(** X1: the estimate fits the budget and is the largest that does: the
    subtracted temporaries plus the returned number of slices stay within
    the available bytes, and one slice more would not. *)
Theorem max_slices_fits_and_is_maximal h w dt avail :
  0 < h -> 0 < w -> 0 < itemsize dt ->
  in_int64 (fixed_overhead h w (itemsize dt)) ->
  in_int64 avail ->
  in_int64 (avail - fixed_overhead h w (itemsize dt)) ->
  let n := fst (fst (_calc_max_slices_distortion_correction_proj (h, w) dt avail)) in
  let slice_size := h * w * itemsize dt in
  fixed_overhead h w (itemsize dt) + n * slice_size <= avail
  /\ avail < fixed_overhead h w (itemsize dt) + (n + 1) * slice_size.
Proof.
  intros Hh Hw Hi Ho Ha Hd. cbv zeta.
  rewrite max_slices_in_range by (assumption || lia). cbn [fst].
  set (s := h * w * itemsize dt). set (o := fixed_overhead h w (itemsize dt)).
  assert (Hs : 0 < s) by (unfold s; nia).
  pose proof (Z.div_mod (avail - o) s ltac:(lia)).
  pose proof (Z.mod_pos_bound (avail - o) s Hs).
  nia.
Qed.

Lemma max_slices_fits_witness :
  fixed_overhead 111 121 4 + 1839 * (111 * 121 * 4) <= 100000000
  /\ 100000000 < fixed_overhead 111 121 4 + (1839 + 1) * (111 * 121 * 4).
Proof.
  apply (max_slices_fits_and_is_maximal 111 121 float32 100000000);
    try lia; try reflexivity; vm_compute; split; (discriminate || reflexivity).
Defined.

(** X2: more available memory never lowers the estimate. *)
Theorem max_slices_monotone h w dt avail1 avail2 :
  0 <= h -> 0 <= w -> 0 < itemsize dt ->
  in_int64 (fixed_overhead h w (itemsize dt)) ->
  in_int64 avail1 -> in_int64 avail2 ->
  in_int64 (avail1 - fixed_overhead h w (itemsize dt)) ->
  in_int64 (avail2 - fixed_overhead h w (itemsize dt)) ->
  avail1 <= avail2 ->
  fst (fst (_calc_max_slices_distortion_correction_proj (h, w) dt avail1))
  <= fst (fst (_calc_max_slices_distortion_correction_proj (h, w) dt avail2)).
Proof.
  intros Hh Hw Hi Ho Ha1 Ha2 Hd1 Hd2 Hle.
  rewrite !max_slices_in_range by assumption. cbn [fst].
  destruct (Z.eq_dec (h * w * itemsize dt) 0) as [E|N].
  - rewrite E, !Z.div_0_r. lia.
  - apply Z.div_le_mono; [nia | lia].
Qed.

Lemma max_slices_monotone_witness :
  fst (fst (_calc_max_slices_distortion_correction_proj (111, 121) uint16 1000))
  <= fst (fst (_calc_max_slices_distortion_correction_proj (111, 121) uint16 100000000)).
Proof.
  apply (max_slices_monotone 111 121 uint16 1000 100000000);
    try lia; try reflexivity; vm_compute; split; (discriminate || reflexivity).
Defined.

End EstimatorMore.

(** ** More on the metadata loader *)

Module LoaderMore.
Import Py World WorldFacts Alignment LoaderFacts.

(** NEL (U+0085) ends a line, and a line of no-break spaces (U+00A0)
    holds no token. *)
Example splitlines_next_line :
  splitlines ("1" +:+ String (ascii_of_N 133) "2") = ["1"; "2"].
Proof. reflexivity. Qed.

Example split_no_break_space :
  split (String (ascii_of_N 160) (String (ascii_of_N 160) "")) = [].
Proof. reflexivity. Qed.

Example repr_with_quote : py_repr "it's" = String double_quote ("it's" +:+ String double_quote "").
Proof. reflexivity. Qed.

Lemma split_from_spaces cur s :
  (forall c, In c (list_ascii_of_string s) -> is_space c = true) ->
  split_from cur s = flush cur.
Proof.
  revert cur. induction s as [|c s IH]; intros cur Hs; cbn; [reflexivity|].
  rewrite (Hs c) by (cbn; auto).
  rewrite IH by (intros c' Hc'; apply Hs; cbn; auto).
  cbn. apply app_nil_r.
Qed.

(** A line of white space only has no token. *)
Lemma split_blank s :
  (forall c, In c (list_ascii_of_string s) -> is_space c = true) -> split s = [].
Proof. intros Hs. unfold split. now rewrite split_from_spaces. Qed.

Section Loader.

Variable py_float : string -> option Q.

(** The loop stops at the first line it cannot read; what follows that
    line plays no part. *)
Lemma parse_lines_first_bad good vals bad rest acc :
  Forall2 (fun line v => exists tok, last (split line) = Some tok
                                     /\ py_float tok = Some v) good vals ->
  parse_lines py_float (good ++ bad :: rest) acc
  = match getitem_last (split bad) with
    | Raise e => Raise e
    | Ok tok =>
        match py_float tok with
        | None =>
            Raise (Exn ValueError
                     ("could not convert string to float: " +:+ py_repr tok) None)
        | Some v => parse_lines py_float rest ((acc ++ vals) ++ [v])
        end
    end.
Proof.
  intros H. revert acc.
  induction H as [|line v good vals (tok & Hl & Hf) _ IH]; intros acc; cbn.
  - now rewrite app_nil_r.
  - unfold getitem_last at 1. rewrite Hl, Hf, IH, <- app_assoc. reflexivity.
Qed.

(** X3: the first line that has no token, or whose last token [float]
    refuses, decides the outcome: [IndexError] for the one, [ValueError]
    with the [repr] of the token in its message for the other, whatever
    the lines after it hold; the file is opened and nothing else
    happens. *)
Theorem loader_first_bad_line_decides w path text good vals bad rest :
  fs w !! path = Some (RegularFile text) ->
  splitlines (translate_newlines text) = good ++ bad :: rest ->
  Forall2 (fun line v => exists tok, last (split line) = Some tok
                                     /\ py_float tok = Some v) good vals ->
  (split bad = [] ->
   fst (_load_metadata_txt py_float (Some path) w)
   = Raise (Exn IndexError "list index out of range" None))
  /\ (forall tok, last (split bad) = Some tok -> py_float tok = None ->
      fst (_load_metadata_txt py_float (Some path) w)
      = Raise (Exn ValueError
                 ("could not convert string to float: " +:+ py_repr tok) None)).
Proof.
  intros Hfs Hlines Hgood.
  unfold _load_metadata_txt, bind, open_read. rewrite Hfs. unfold lift.
  rewrite Hlines, (parse_lines_first_bad _ _ _ _ _ Hgood).
  split.
  - intros ->. reflexivity.
  - intros tok Hl Hf. unfold getitem_last. rewrite Hl, Hf. reflexivity.
Qed.

(** X4: a file all of whose lines are readable but which has fewer than two
    of them (the empty file among them) makes the loader raise
    [IndexError]. *)
Theorem loader_short_file_IndexError w path text vals :
  fs w !! path = Some (RegularFile text) ->
  Forall2 (fun line v => exists tok, last (split line) = Some tok
                                     /\ py_float tok = Some v)
    (splitlines (translate_newlines text)) vals ->
  (length (splitlines (translate_newlines text)) < 2)%nat ->
  fst (_load_metadata_txt py_float (Some path) w)
  = Raise (Exn IndexError "list index out of range" None).
Proof.
  intros Hfs Hlines Hlen.
  unfold _load_metadata_txt, bind, open_read. rewrite Hfs. unfold lift.
  rewrite (parse_lines_Forall2 _ _ _ [] Hlines). cbn [app].
  apply Forall2_length in Hlines. rewrite Hlines in Hlen.
  destruct vals as [|x [|y vals]]; cbn in Hlen; try lia; reflexivity.
Qed.

(** X5: the loader looks at the named file and at nothing else: worlds that
    agree on that file give the same outcome, and the call leaves the
    files, every device buffer and the device events as they were. *)
Theorem loader_reads_only_the_file w1 w2 path :
  fs w1 !! path = fs w2 !! path ->
  fst (_load_metadata_txt py_float (Some path) w1)
  = fst (_load_metadata_txt py_float (Some path) w2)
  /\ host_only w1 (snd (_load_metadata_txt py_float (Some path) w1)).
Proof.
  intros Hfs. split.
  - unfold _load_metadata_txt, bind, open_read. rewrite Hfs.
    destruct (fs w2 !! path) as [[text| |]|]; try reflexivity.
    unfold lift. destruct (parse_lines _ _ _) as [l|]; [|reflexivity].
    destruct (getitem l 0); [|reflexivity]. destruct (getitem l 1); reflexivity.
  - destruct (_load_metadata_txt py_float (Some path) w1) as [r w'] eqn:E.
    apply (load_host_only _ _ _ _ _ E).
Qed.

End Loader.

Import Examples MoreExamples.

Lemma loader_first_bad_line_witness :
  fst (_load_metadata_txt Decimal.decimal_float (Some "f")
         (World {[ "f" := RegularFile blank_second_line ]} ∅ []))
  = Raise (Exn IndexError "list index out of range" None)
  /\ fst (_load_metadata_txt Decimal.decimal_float (Some "f")
            (World {[ "f" := RegularFile bad_second_line ]} ∅ []))
     = Raise (Exn ValueError "could not convert string to float: 'seven'" None).
Proof.
  split.
  - refine (proj1 (loader_first_bad_line_decides Decimal.decimal_float _ "f"
                     blank_second_line ["xc 1.0"] [1%Q] "   " ["f0 1.0"] _ _ _) _);
      try reflexivity.
    constructor; [eexists; split; reflexivity | constructor].
  - refine (proj2 (loader_first_bad_line_decides Decimal.decimal_float _ "f"
                     bad_second_line ["xc 1.0"] [1%Q] "yc seven" ["f0 oops"] _ _ _)
              "seven" _ _); try reflexivity.
    constructor; [eexists; split; reflexivity | constructor].
Defined.

Lemma loader_short_file_witness :
  fst (_load_metadata_txt Decimal.decimal_float (Some "f")
         (World {[ "f" := RegularFile "xc 1.0" ]} ∅ []))
  = Raise (Exn IndexError "list index out of range" None).
Proof.
  apply (loader_short_file_IndexError Decimal.decimal_float _ "f" "xc 1.0" [1%Q]).
  - reflexivity.
  - constructor; [eexists; split; reflexivity | constructor].
  - apply Nat.ltb_lt. reflexivity.
Defined.

Lemma loader_reads_only_the_file_witness :
  fst (_load_metadata_txt Decimal.decimal_float (Some "coeff.txt") world0)
  = fst (_load_metadata_txt Decimal.decimal_float (Some "coeff.txt")
           (World files ∅ [DeviceCall "earlier"])).
Proof.
  apply (loader_reads_only_the_file Decimal.decimal_float world0
           (World files ∅ [DeviceCall "earlier"]) "coeff.txt").
  reflexivity.
Defined.

End LoaderMore.

(** ** Running the correctors: what a success tells, and what the start
    of a run amounts to *)

Module RunFacts.
Import Py World WorldFacts Alignment AlignmentParts LoaderFacts.

Lemma bind_Ok_inv {A B} (m : M A) (k : A -> M B) w b w' :
  bind m k w = (Ok b, w') -> exists a w1, m w = (Ok a, w1) /\ k a w1 = (Ok b, w').
Proof.
  unfold bind. destruct (m w) as [[a|e] w1]; [eauto | discriminate].
Qed.

Lemma lift_Ok_inv {A} (r : result A) w a w1 : lift r w = (Ok a, w1) -> r = Ok a /\ w1 = w.
Proof. unfold lift. now intros [= -> ->]. Qed.

Lemma getitem_Ok_inv {A} (l : list A) i x : getitem l i = Ok x -> l !! i = Some x.
Proof. unfold getitem. destruct (l !! i); [now intros [= ->] | discriminate]. Qed.

Lemma tuple_getitem_Ok_inv l i x : tuple_getitem l i = Ok x -> l !! i = Some x.
Proof. unfold tuple_getitem. destruct (l !! i); [now intros [= ->] | discriminate]. Qed.

Lemma dict_getitem_Ok_inv d key w v w1 :
  dict_getitem d key w = (Ok v, w1) -> d !! key = Some v /\ w1 = w.
Proof. unfold dict_getitem. destruct (d !! key); [now intros [= -> ->] | discriminate]. Qed.

Section Correctors.

Variable py_float : string -> option Q.
Variable cp_sqrt : Q -> Q.
Variable map_coordinates :
  list Q -> list Z -> list Q -> list Q -> Z -> string -> result (list Q).

Lemma load_Ok_inv path w v w' :
  _load_metadata_txt py_float path w = (Ok v, w') ->
  exists p text,
    path = Some p /\ fs w !! p = Some (RegularFile text)
    /\ w' = World (fs w) (heap w) (trace w ++ [FileOpen p])
    /\ forall w2, fs w2 !! p = Some (RegularFile text) ->
         _load_metadata_txt py_float path w2
         = (Ok v, World (fs w2) (heap w2) (trace w2 ++ [FileOpen p])).
Proof.
  unfold _load_metadata_txt, bind, open_read.
  destruct path as [p|]; [|discriminate].
  destruct (fs w !! p) as [[text| |]|] eqn:Hfs; try discriminate.
  unfold lift.
  destruct (parse_lines _ _ _) as [l|] eqn:Hp; [|discriminate].
  destruct (getitem l 0) as [x|] eqn:H0; [|discriminate].
  destruct (getitem l 1) as [y|] eqn:H1; [|discriminate].
  unfold ret. intros [= <- <-].
  exists p, text. split; [reflexivity|]. split; [exact Hfs|].
  split; [reflexivity|].
  intros w2 Hw2. rewrite Hw2, Hp, H0, H1. reflexivity.
Qed.

Lemma variant_A_Ok_inv data path preview cl ct coeffs crop w out w' :
  distortion_correction_proj py_float cp_sqrt map_coordinates data path preview
    cl ct coeffs crop w = (Ok out, w') ->
  exists p xc yc lf shift step sx sy xo yo count height width xd_mat yd_mat diff t2,
    path = Some p
    /\ fst (_load_metadata_txt py_float path w) = Ok (xc, yc, lf)
    /\ preview !! "starts" = Some shift /\ preview !! "steps" = Some step
    /\ step !! 1%nat = Some sx /\ step !! 0%nat = Some sy /\ Z.max sx sy <= 1
    /\ shift !! 1%nat = Some xo /\ shift !! 0%nat = Some yo
    /\ shape (promoted data) !! 0%nat = Some count
    /\ shape (promoted data) !! 1%nat = Some height
    /\ shape (promoted data) !! 2%nat = Some width
    /\ distortion_field cp_sqrt (xc - inject_Z xo) (yc - inject_Z yo) lf height width
       = (xd_mat, yd_mat)
    /\ spread yd_mat (World (fs w) (heap w) t2) = (Ok diff, World (fs w) (heap w) t2)
    /\ (1 <= diff)%Q
    /\ bind (for_range (unwarp_A map_coordinates (promoted data) height width crop
                          yd_mat xd_mat) 0 (Z.to_nat count))
         (fun _ => ret (promoted data)) (World (fs w) (heap w) t2) = (Ok out, w').
Proof.
  unfold distortion_correction_proj. fold (promoted data). generalize (promoted data). intros d H.
  apply bind_Ok_inv in H as ([[xc0 yc0] lf0] & w1 & Hl & H).
  destruct (load_Ok_inv _ _ _ _ Hl) as (p & text & -> & Hfs & -> & Hagain).
  apply bind_Ok_inv in H as (shift & w1 & [Hshift ->]%dict_getitem_Ok_inv & H).
  apply bind_Ok_inv in H as (step & w1 & [Hstep ->]%dict_getitem_Ok_inv & H).
  apply bind_Ok_inv in H as (sx & w1 & [Hsx%getitem_Ok_inv ->]%lift_Ok_inv & H).
  apply bind_Ok_inv in H as (sy & w1 & [Hsy%getitem_Ok_inv ->]%lift_Ok_inv & H).
  destruct (1 <? Z.max sx sy) eqn:Hmax; [discriminate|]. apply Z.ltb_ge in Hmax.
  apply bind_Ok_inv in H as (xo & w1 & [Hxo%getitem_Ok_inv ->]%lift_Ok_inv & H).
  apply bind_Ok_inv in H as (yo & w1 & [Hyo%getitem_Ok_inv ->]%lift_Ok_inv & H).
  apply bind_Ok_inv in H as ([[xc yc] lf] & w2 & Hsecond & H).
  apply bind_Ok_inv in Hsecond as (found & w1 & Hfound & Hsecond).
  unfold isfile in Hfound. cbn [fs] in Hfound. rewrite Hfs in Hfound.
  injection Hfound as <- <-. cbn [negb] in Hsecond.
  unfold except_IOError in Hsecond.
  rewrite (bind_Ok _ _ _ _ _ (Hagain (World (fs w) (heap w) (trace w ++ [FileOpen p])) Hfs)) in Hsecond. cbn [fs heap trace] in Hsecond.
  unfold ret in Hsecond. injection Hsecond as <- <- <- <-.
  apply bind_Ok_inv in H as (height & w1 & [Hh%tuple_getitem_Ok_inv ->]%lift_Ok_inv & H).
  apply bind_Ok_inv in H as (width & w1 & [Hw%tuple_getitem_Ok_inv ->]%lift_Ok_inv & H).
  apply bind_Ok_inv in H as ([] & w2 & Hemit & H).
  unfold emit in Hemit. cbn [fs heap trace] in Hemit. injection Hemit as <-.
  destruct (distortion_field _ _ _ _ _ _) as [xd yd] eqn:Hfield.
  apply bind_Ok_inv in H as (diff & w1 & Hspread & H).
  assert (w1 = World (fs w) (heap w)
                 (((trace w ++ [FileOpen p]) ++ [FileOpen p]) ++ geometry_events height width)) as ->.
  { unfold spread in Hspread. destruct (list_max yd), (list_min yd); try discriminate.
    now injection Hspread as <- <-. }
  destruct (Qlt_le_dec diff 1) as [|Hdiff]; [discriminate|].
  apply bind_Ok_inv in H as (count & w1 & [Hc%tuple_getitem_Ok_inv ->]%lift_Ok_inv & H).
  exists p, xc0, yc0, lf0, shift, step, sx, sy, xo, yo, count, height, width, xd, yd, diff.
  eexists. rewrite Hl. cbn [fst].
  repeat (split; [first [reflexivity | eassumption]|]).
  exact H.
Qed.

Lemma variant_B_run data path preview order mode w xc yc lf w1 shift step sx sy xo yo
    count height width :
  _load_metadata_txt py_float path w = (Ok (xc, yc, lf), w1) ->
  preview !! "starts" = Some shift -> preview !! "steps" = Some step ->
  step !! 1%nat = Some sx -> step !! 0%nat = Some sy -> Z.max sx sy <= 1 ->
  shift !! 1%nat = Some xo -> shift !! 0%nat = Some yo ->
  shape (promoted data) !! 0%nat = Some count ->
  shape (promoted data) !! 1%nat = Some height ->
  shape (promoted data) !! 2%nat = Some width ->
  distortion_correction_proj_discorpy py_float cp_sqrt map_coordinates data path
    preview order mode w
  = bind (for_range
            (unwarp_B map_coordinates (promoted data) height width
               (snd (distortion_field cp_sqrt (xc - inject_Z xo) (yc - inject_Z yo)
                       lf height width))
               (fst (distortion_field cp_sqrt (xc - inject_Z xo) (yc - inject_Z yo)
                       lf height width))
               order mode) 0 (Z.to_nat count))
      (fun _ => ret (promoted data))
      (World (fs w1) (heap w1) (trace w1 ++ geometry_events height width)).
Proof.
  intros Hl Hshift Hstep Hsx Hsy Hmax Hxo Hyo Hc Hh Hw.
  unfold distortion_correction_proj_discorpy. fold (promoted data).
  rewrite (bind_Ok _ _ _ _ _ Hl).
  unfold dict_getitem. rewrite Hshift, Hstep.
  unfold bind at 1, ret at 1. unfold bind at 1, ret at 1.
  unfold getitem. rewrite Hsx, Hsy, Hxo, Hyo.
  unfold bind at 1, lift at 1. unfold bind at 1, lift at 1.
  replace (1 <? Z.max sx sy) with false by (symmetry; apply Z.ltb_ge; exact Hmax).
  unfold bind at 1, lift at 1. unfold bind at 1, lift at 1.
  unfold tuple_getitem. cbn [Nat.add]. rewrite Hh, Hw, Hc.
  unfold bind at 1, lift at 1. unfold bind at 1, lift at 1.
  unfold bind at 1, emit at 1.
  destruct (distortion_field _ _ _ _ _ _) as [xd yd]. cbn [fst snd].
  unfold bind at 1, lift at 1. reflexivity.
Qed.

Lemma variant_B_Ok_inv data path preview order mode w out w' :
  distortion_correction_proj_discorpy py_float cp_sqrt map_coordinates data path
    preview order mode w = (Ok out, w') ->
  exists xc yc lf w1 shift step sx sy xo yo count height width,
    _load_metadata_txt py_float path w = (Ok (xc, yc, lf), w1)
    /\ preview !! "starts" = Some shift /\ preview !! "steps" = Some step
    /\ step !! 1%nat = Some sx /\ step !! 0%nat = Some sy /\ Z.max sx sy <= 1
    /\ shift !! 1%nat = Some xo /\ shift !! 0%nat = Some yo
    /\ shape (promoted data) !! 0%nat = Some count
    /\ shape (promoted data) !! 1%nat = Some height
    /\ shape (promoted data) !! 2%nat = Some width.
Proof.
  unfold distortion_correction_proj_discorpy. fold (promoted data). generalize (promoted data). intros d H.
  apply bind_Ok_inv in H as ([[xc0 yc0] lf0] & w1 & Hl & H).
  apply bind_Ok_inv in H as (shift & w2 & [Hshift ->]%dict_getitem_Ok_inv & H).
  apply bind_Ok_inv in H as (step & w2 & [Hstep ->]%dict_getitem_Ok_inv & H).
  apply bind_Ok_inv in H as (sx & w2 & [Hsx%getitem_Ok_inv ->]%lift_Ok_inv & H).
  apply bind_Ok_inv in H as (sy & w2 & [Hsy%getitem_Ok_inv ->]%lift_Ok_inv & H).
  destruct (1 <? Z.max sx sy) eqn:Hmax; [discriminate|]. apply Z.ltb_ge in Hmax.
  apply bind_Ok_inv in H as (xo & w2 & [Hxo%getitem_Ok_inv ->]%lift_Ok_inv & H).
  apply bind_Ok_inv in H as (yo & w2 & [Hyo%getitem_Ok_inv ->]%lift_Ok_inv & H).
  apply bind_Ok_inv in H as (height & w2 & [Hh%tuple_getitem_Ok_inv ->]%lift_Ok_inv & H).
  apply bind_Ok_inv in H as (width & w2 & [Hw%tuple_getitem_Ok_inv ->]%lift_Ok_inv & H).
  apply bind_Ok_inv in H as ([] & w2 & Hemit & H).
  destruct (distortion_field _ _ _ _ _ _) as [xd yd] eqn:Hfield.
  apply bind_Ok_inv in H as (count & w3 & [Hc%tuple_getitem_Ok_inv ->]%lift_Ok_inv & H).
  exists xc0, yc0, lf0, w1, shift, step, sx, sy, xo, yo, count, height, width.
  repeat (split; [first [reflexivity | eassumption]|]). assumption.
Qed.
End Correctors.

End RunFacts.

(** ** The coordinate field *)

Module FieldFacts.
Import Py World Alignment ListFacts.

Lemma length_arange n : length (arange n) = Z.to_nat n.
Proof. unfold arange. now rewrite length_map, length_seq. Qed.

Lemma clip_bounds a hi : (0 <= hi -> 0 <= clip a 0 hi <= hi)%Q.
Proof.
  intros Hhi. unfold clip. split.
  - apply Q.min_glb; [apply Q.le_max_r | exact Hhi].
  - apply Q.le_min_r.
Qed.

Section Field.
Variable cp_sqrt : Q -> Q.

Lemma meshgrid_lengths (xs ys : list Q) :
  length (fst (meshgrid xs ys)) = (length ys * length xs)%nat
  /\ length (snd (meshgrid xs ys)) = (length ys * length xs)%nat.
Proof.
  unfold meshgrid. cbn [fst snd]. split; apply length_flat_map_const; intros y;
    [reflexivity | apply length_map].
Qed.

Lemma distortion_field_lengths xc yc lf height width :
  length (fst (distortion_field cp_sqrt xc yc lf height width))
  = (Z.to_nat height * Z.to_nat width)%nat
  /\ length (snd (distortion_field cp_sqrt xc yc lf height width))
     = (Z.to_nat height * Z.to_nat width)%nat.
Proof.
  unfold distortion_field.
  destruct (meshgrid _ _) as [xu yu] eqn:Hm.
  pose proof (meshgrid_lengths (map (fun x => x - xc)%Q (arange width))
                (map (fun y => y - yc)%Q (arange height))) as [L1 L2].
  rewrite Hm in L1, L2. cbn [fst snd] in *.
  rewrite !length_map, !length_arange in L1, L2.
  rewrite !length_zip_with, !length_map, !length_zip_with, L1, L2. lia.
Qed.

Lemma Forall_zip_with_any {A B C} (P : C -> Prop) (g : A -> B -> C) l k :
  (forall a b, P (g a b)) -> Forall P (zip_with g l k).
Proof.
  intros Hg. revert k. induction l as [|a l IH]; intros [|b k]; cbn; constructor; auto.
Qed.

Lemma field_bounds xc yc lf height width :
  1 <= height -> 1 <= width ->
  Forall (fun x => 0 <= x <= inject_Z (width - 1))%Q
    (fst (distortion_field cp_sqrt xc yc lf height width))
  /\ Forall (fun y => 0 <= y <= inject_Z (height - 1))%Q
       (snd (distortion_field cp_sqrt xc yc lf height width)).
Proof.
  intros Hh Hw.
  assert (Hb : forall n, 1 <= n -> (0 <= inject_Z (n - 1))%Q).
  { intros n Hn. change 0%Q with (inject_Z 0). rewrite <- Zle_Qle. lia. }
  unfold distortion_field. destruct (meshgrid _ _) as [xu yu]. cbn [fst snd].
  split; apply Forall_zip_with_any; intros a b; apply clip_bounds; auto.
Qed.

End Field.

End FieldFacts.

(** ** The order in which the correctors fail *)

Module CorrectorOrder.
Import Py World WorldFacts Alignment LoaderFacts.

Section Correctors.

Variable py_float : string -> option Q.
Variable cp_sqrt : Q -> Q.
Variable map_coordinates :
  list Q -> list Z -> list Q -> list Q -> Z -> string -> result (list Q).

(** X8: both variants fail in the same order: the file first, then the
    [starts] and [steps] keys of the preview, then the two step entries
    (the second before the first), then the step size, then the two
    start entries. *)
Theorem correctors_fail_in_order data path preview cl ct coeffs crop order mode w :
  let run_A := distortion_correction_proj py_float cp_sqrt map_coordinates data path
                 preview cl ct coeffs crop w in
  let run_B := distortion_correction_proj_discorpy py_float cp_sqrt map_coordinates
                 data path preview order mode w in
  (forall e w1, _load_metadata_txt py_float path w = (Raise e, w1) ->
     run_A = (Raise e, w1) /\ run_B = (Raise e, w1))
  /\ (forall v w1, _load_metadata_txt py_float path w = (Ok v, w1) ->
      (preview !! "starts" = None ->
       run_A = (Raise (Exn KeyError "'starts'" None), w1) /\ run_B = run_A)
      /\ (forall shift, preview !! "starts" = Some shift ->
          (preview !! "steps" = None ->
           run_A = (Raise (Exn KeyError "'steps'" None), w1) /\ run_B = run_A)
          /\ (forall step, preview !! "steps" = Some step ->
              ((length step < 2)%nat ->
               run_A = (Raise (Exn IndexError "list index out of range" None), w1)
               /\ run_B = run_A)
              /\ (forall sx sy, step !! 1%nat = Some sx -> step !! 0%nat = Some sy ->
                  (1 < Z.max sx sy ->
                   run_A = (Raise (Exn ValueError step_msg None), w1) /\ run_B = run_A)
                  /\ (Z.max sx sy <= 1 -> (length shift < 2)%nat ->
                      run_A = (Raise (Exn IndexError "list index out of range" None), w1)
                      /\ run_B = run_A))))).
Proof.
  cbv zeta. split.
  - intros e w1 Hl. split.
    + now apply AlignmentFacts.variant_A_load_fails.
    + now apply AlignmentFacts.variant_B_load_fails.
  - intros [[xc yc] lf] w1 Hl.
    unfold distortion_correction_proj, distortion_correction_proj_discorpy.
    rewrite !(bind_Ok _ _ _ _ _ Hl). cbv zeta. unfold dict_getitem.
    split; [intros ->; split; reflexivity|].
    intros shift ->. split; [intros ->; split; reflexivity|].
    intros step ->. unfold getitem. split.
    + intros Hlen. destruct step as [|s0 [|s1 step]]; cbn in Hlen; try lia;
        split; reflexivity.
    + intros sx sy Hsx Hsy. unfold bind, ret, lift, raise. cbv beta iota.
      rewrite Hsx, Hsy. cbv beta iota. split.
      * intros Hgt%Z.ltb_lt. rewrite Hgt. split; reflexivity.
      * intros Hle%Z.ltb_ge Hlen. rewrite Hle.
        destruct shift as [|a [|b shift]]; cbn in Hlen; try lia; split; reflexivity.
Qed.
End Correctors.

Import Examples.

(** The missing file is reported although the preview asks for step 2;
    with the file in place the step is. *)
Lemma correctors_fail_in_order_witness :
  distortion_correction_proj Decimal.decimal_float sqrt_floor bilinear img22
    (Some "nope.txt") preview_step2 None None None 0 world0
  = (Raise (Exn FileNotFoundError
              "[Errno 2] No such file or directory: 'nope.txt'" None), world0)
  /\ fst (distortion_correction_proj_discorpy Decimal.decimal_float sqrt_floor bilinear
            img22 (Some "identity.txt") preview_step2 1 "reflect" world0)
     = Raise (Exn ValueError step_msg None).
Proof.
  pose proof (correctors_fail_in_order Decimal.decimal_float sqrt_floor bilinear img22
                (Some "nope.txt") preview_step2 None None None 0 1 "reflect" world0)
    as [Hfile _].
  pose proof (correctors_fail_in_order Decimal.decimal_float sqrt_floor bilinear img22
                (Some "identity.txt") preview_step2 None None None 0 1 "reflect" world0)
    as [_ Hstep].
  split.
  - apply (Hfile _ world0). reflexivity.
  - destruct (_load_metadata_txt Decimal.decimal_float (Some "identity.txt") world0)
      as [[v|e] w1] eqn:E; [|vm_compute in E; discriminate E].
    destruct (Hstep v w1 eq_refl) as [_ H].
    destruct (H [0; 0] eq_refl) as [_ H2].
    destruct (H2 [2; 1] eq_refl) as [_ H3].
    destruct (H3 1 2 eq_refl eq_refl) as [H4 _].
    destruct (H4 ltac:(lia)) as [HA HB]. rewrite HB, HA. reflexivity.
Defined.

End CorrectorOrder.

(** ** Edge cases of the correctors *)

Module CorrectorEdges.
Import Py World WorldFacts Alignment AlignmentParts LoaderFacts RunFacts FieldFacts.

Lemma fold_max_bounds (l : list Q) x a b :
  (a <= x <= b)%Q -> Forall (fun y => a <= y <= b)%Q l ->
  (a <= fold_left Qmax l x <= b)%Q.
Proof.
  intros Hx Hl. revert x Hx. induction Hl as [|y l [Hy1 Hy2] _ IH]; intros x [Hx1 Hx2]; cbn.
  - split; assumption.
  - apply IH. split.
    + eapply Qle_trans; [exact Hx1 | apply Q.le_max_l].
    + apply Q.max_lub; assumption.
Qed.

Lemma fold_min_bounds (l : list Q) x a b :
  (a <= x <= b)%Q -> Forall (fun y => a <= y <= b)%Q l ->
  (a <= fold_left Qmin l x <= b)%Q.
Proof.
  intros Hx Hl. revert x Hx. induction Hl as [|y l [Hy1 Hy2] _ IH]; intros x [Hx1 Hx2]; cbn.
  - split; assumption.
  - apply IH. split.
    + apply Q.min_glb; assumption.
    + eapply Qle_trans; [apply Q.le_min_l | exact Hx2].
Qed.

(** The spread of values that lie in an interval is at most its width. *)
Lemma spread_bounded yd a b w diff w' :
  Forall (fun y => a <= y <= b)%Q yd ->
  spread yd w = (Ok diff, w') -> (diff <= b - a)%Q.
Proof.
  intros Hyd. unfold spread. destruct yd as [|y yd]; [discriminate|].
  cbn [list_max list_min]. intros [= <- <-].
  apply Forall_cons in Hyd as [Hy Hyd].
  pose proof (fold_max_bounds yd y a b Hy Hyd).
  pose proof (fold_min_bounds yd y a b Hy Hyd). lra.
Qed.

Lemma spread_empty w r w' : spread [] w = (r, w') -> is_Raise r = true.
Proof. unfold spread. cbn. now intros [= <- <-]. Qed.

Lemma for_range_zero body start : for_range body start 0 = ret tt.
Proof. reflexivity. Qed.

Section Correctors.

Variable py_float : string -> option Q.
Variable cp_sqrt : Q -> Q.
Variable map_coordinates :
  list Q -> list Z -> list Q -> list Q -> Z -> string -> result (list Q).

(** A row spread of at least 1 takes two rows, and a column. *)
Lemma spread_needs_two_rows xc yc lf height width xd yd w diff w' :
  distortion_field cp_sqrt xc yc lf height width = (xd, yd) ->
  spread yd w = (Ok diff, w') -> (1 <= diff)%Q ->
  2 <= height /\ 1 <= width.
Proof.
  intros Hf Hs Hd.
  pose proof (distortion_field_lengths cp_sqrt xc yc lf height width) as [_ L].
  rewrite Hf in L. cbn [snd] in L.
  destruct (Z_lt_le_dec height 1) as [Hlt|Hge1].
  { replace (Z.to_nat height) with 0%nat in L by lia. cbn in L.
    destruct yd; [|discriminate]. apply spread_empty in Hs. discriminate. }
  destruct (Z_lt_le_dec width 1) as [Hlt|Hgew].
  { replace (Z.to_nat width) with 0%nat in L by lia. rewrite Nat.mul_0_r in L.
    destruct yd; [|discriminate]. apply spread_empty in Hs. discriminate. }
  split; [|exact Hgew].
  destruct (Z_lt_le_dec height 2) as [Hlt|]; [|assumption].
  assert (height = 1) as -> by lia.
  pose proof (field_bounds cp_sqrt xc yc lf 1 width ltac:(lia) Hgew) as [_ B].
  rewrite Hf in B. cbn [snd] in B.
  apply (spread_bounded _ _ _ _ _ _ B) in Hs.
  change (inject_Z (1 - 1)) with 0%Q in Hs. lra.
Qed.

(** X10: with a positive [crop], variant A gets through a volume that has a
    slice only when the slices are squares of side [2*crop + 1]: then the
    single pixel left by the crop is spread over the slice; any other
    cropped block does not fit the slice it is assigned to. *)
Theorem variant_A_crop_succeeds_only_on_a_single_pixel data path preview cl ct coeffs
    crop w out w' count height width :
  shape (promoted data) !! 0%nat = Some count ->
  shape (promoted data) !! 1%nat = Some height ->
  shape (promoted data) !! 2%nat = Some width ->
  1 <= count -> 0 < crop ->
  distortion_correction_proj py_float cp_sqrt map_coordinates data path preview
    cl ct coeffs crop w = (Ok out, w') ->
  height = 2 * crop + 1 /\ width = 2 * crop + 1.
Proof.
  intros Hc Hh Hw Hcount Hcrop H.
  apply variant_A_Ok_inv in H
    as (p & xc & yc & lf & shift & step & sx & sy & xo & yo & c' & h' & w0 & xd & yd
        & diff & t2 & _ & _ & _ & _ & _ & _ & _ & _ & _ & Hc' & Hh' & Hw' & Hf & Hs & Hd & H).
  rewrite Hc in Hc'. rewrite Hh in Hh'. rewrite Hw in Hw'.
  injection Hc' as <-. injection Hh' as <-. injection Hw' as <-.
  destruct (spread_needs_two_rows _ _ _ _ _ _ _ _ _ _ Hf Hs Hd) as [Hh2 Hw1].
  apply bind_Ok_inv in H as ([] & w3 & Hloop & _).
  replace (Z.to_nat count) with (S (Z.to_nat (count - 1))) in Hloop by lia.
  cbn [for_range] in Hloop.
  apply bind_Ok_inv in Hloop as ([] & w4 & Hbody & _).
  unfold unwarp_A in Hbody.
  apply bind_Ok_inv in Hbody as (mat & w5 & _ & Hset).
  destruct (slice_range crop (height - crop) height) as [r0 nr] eqn:Hr.
  destruct (slice_range crop (width - crop) width) as [c0 nc] eqn:Hcc.
  unfold setitem_slice in Hset.
  apply bind_Ok_inv in Hset as (stored & w6 & [Hb _]%lift_Ok_inv & _).
  unfold broadcast_to in Hb.
  destruct (((nr =? height) || (nr =? 1)) && ((nc =? width) || (nc =? 1))) eqn:Hcond;
    [|discriminate].
  unfold slice_range, slice_bound in Hr, Hcc.
  injection Hr as <- <-. injection Hcc as <- <-.
  apply andb_true_iff in Hcond as [C1 C2].
  apply orb_true_iff in C1, C2.
  rewrite !Z.eqb_eq in C1, C2.
  destruct (Z.ltb_spec crop 0); [lia|].
  destruct (Z.ltb_spec (height - crop) 0), (Z.ltb_spec (width - crop) 0); lia.
Qed.

(** X11: a successful call on a volume without slices writes nothing: the
    store is the one before the call. *)
Theorem no_slices_nothing_written data path preview cl ct coeffs crop order mode w :
  shape (promoted data) !! 0%nat = Some 0 ->
  (forall out w',
     distortion_correction_proj py_float cp_sqrt map_coordinates data path preview
       cl ct coeffs crop w = (Ok out, w') ->
     out = promoted data /\ heap w' = heap w)
  /\ (forall out w',
        distortion_correction_proj_discorpy py_float cp_sqrt map_coordinates data path
          preview order mode w = (Ok out, w') ->
        out = promoted data /\ heap w' = heap w).
Proof.
  intros Hc. split.
  - intros out w' H.
    apply variant_A_Ok_inv in H
      as (p & xc & yc & lf & shift & step & sx & sy & xo & yo & c' & h' & w0 & xd & yd
          & diff & t2 & _ & _ & _ & _ & _ & _ & _ & _ & _ & Hc' & _ & _ & _ & _ & _ & H).
    rewrite Hc in Hc'. injection Hc' as <-.
    cbn in H. injection H as <- <-. split; reflexivity.
  - intros out w' H.
    pose proof H as H0. apply variant_B_Ok_inv in H0
      as (xc & yc & lf & w1 & shift & step & sx & sy & xo & yo & c' & h' & w0
          & Hl & Hshift & Hstep & Hsx & Hsy & Hmax & Hxo & Hyo & Hc' & Hh & Hw).
    erewrite (variant_B_run py_float cp_sqrt map_coordinates) in H by eassumption.
    rewrite Hc in Hc'. injection Hc' as <-.
    cbn in H. injection H as <- <-.
    apply load_host_only in Hl as (_ & Hheap & _). split; [reflexivity | exact Hheap].
Qed.

End Correctors.

Import Examples MoreExamples.

Lemma variant_A_crop_witness :
  exists out w',
    distortion_correction_proj Decimal.decimal_float sqrt_floor bilinear vol133
      (Some "identity.txt") preview_full None None None 1 world0 = (Ok out, w')
    /\ 3 = 2 * 1 + 1 /\ 3 = 2 * 1 + 1.
Proof.
  destruct (distortion_correction_proj Decimal.decimal_float sqrt_floor bilinear vol133
              (Some "identity.txt") preview_full None None None 1 world0)
    as [[out|e] w'] eqn:E; [|vm_compute in E; discriminate E].
  exists out, w'. split; [reflexivity|].
  apply (variant_A_crop_succeeds_only_on_a_single_pixel Decimal.decimal_float sqrt_floor
           bilinear vol133 (Some "identity.txt") preview_full None None None 1 world0
           out w' 1 3 3 eq_refl eq_refl eq_refl ltac:(lia) ltac:(lia) E).
Defined.

Lemma no_slices_witness :
  (exists w',
     distortion_correction_proj Decimal.decimal_float sqrt_floor bilinear vol033
       (Some "identity.txt") preview_full None None None 0 world_no_slices
     = (Ok vol033, w')
     /\ heap w' = heap world_no_slices)
  /\ (exists w',
        distortion_correction_proj_discorpy Decimal.decimal_float sqrt_floor bilinear
          vol033 (Some "identity.txt") preview_full 1 "reflect" world_no_slices
        = (Ok vol033, w')
        /\ heap w' = heap world_no_slices).
Proof.
  pose proof (no_slices_nothing_written Decimal.decimal_float sqrt_floor bilinear vol033
                (Some "identity.txt") preview_full None None None 0 1 "reflect"
                world_no_slices eq_refl) as [HA HB].
  split.
  - destruct (distortion_correction_proj _ _ _ vol033 _ _ _ _ _ _ world_no_slices)
      as [[out|e] w'] eqn:E; [|vm_compute in E; discriminate E].
    destruct (HA out w' eq_refl) as [-> Hh]. exists w'. split; [reflexivity | exact Hh].
  - destruct (distortion_correction_proj_discorpy _ _ _ vol033 _ _ _ _ world_no_slices)
      as [[out|e] w'] eqn:E; [|vm_compute in E; discriminate E].
    destruct (HB out w' eq_refl) as [-> Hh]. exists w'. split; [reflexivity | exact Hh].
Defined.

End CorrectorEdges.

(** ** The loops of the correctors *)

Module CorrectorLoops.
Import Py World WorldFacts Alignment AlignmentParts LoaderFacts RunFacts FieldFacts.
Import CorrectorEdges.

Lemma lookup_get_slice (x : list Q) j n q :
  get_slice x j n !! q = if decide (q < n)%nat then x !! (j * n + q)%nat else None.
Proof.
  unfold get_slice. destruct (decide (q < n)%nat).
  - now rewrite lookup_take_lt, lookup_drop by assumption.
  - apply lookup_take_ge. lia.
Qed.

Lemma lookup_set_slice (b : list Q) i n v p :
  length v = n -> ((i + 1) * n <= length b)%nat ->
  set_slice b i n v !! p
  = if decide (i * n <= p < i * n + n)%nat then v !! (p - i * n)%nat else b !! p.
Proof.
  intros Hv Hb. unfold set_slice.
  assert (Lt : length (take (i * n) b) = (i * n)%nat) by (rewrite length_take; lia).
  destruct (decide (i * n <= p < i * n + n)%nat) as [Hin|Hout].
  - rewrite lookup_app_r by lia. rewrite Lt. apply lookup_app_l. lia.
  - destruct (decide (p < i * n)%nat).
    + rewrite lookup_app_l by lia. now apply lookup_take_lt.
    + rewrite lookup_app_r by lia. rewrite Lt, lookup_app_r by lia.
      rewrite lookup_drop, Hv. f_equal. lia.
Qed.

Lemma length_set_slice (b : list Q) i n v :
  length v = n -> ((i + 1) * n <= length b)%nat ->
  length (set_slice b i n v) = length b.
Proof.
  intros Hv Hb. unfold set_slice.
  rewrite !length_app, length_take, length_drop. lia.
Qed.

Lemma get_set_slice_same (b : list Q) i n v :
  length v = n -> ((i + 1) * n <= length b)%nat ->
  get_slice (set_slice b i n v) i n = v.
Proof.
  intros Hv Hb. apply list_eq. intros q.
  rewrite lookup_get_slice, lookup_set_slice by assumption.
  destruct (decide (q < n)%nat).
  - rewrite decide_True by lia. f_equal. lia.
  - symmetry. apply lookup_ge_None. lia.
Qed.

Lemma get_set_slice_other (b : list Q) i j n v :
  length v = n -> ((i + 1) * n <= length b)%nat -> i <> j ->
  get_slice (set_slice b i n v) j n = get_slice b j n.
Proof.
  intros Hv Hb Hij. apply list_eq. intros q.
  rewrite !lookup_get_slice, lookup_set_slice by assumption.
  destruct (decide (q < n)%nat); [|reflexivity].
  rewrite decide_False; [reflexivity|]. nia.
Qed.

(** Rows laid end to end give the matrix back. *)
Lemma rows_concat (row : nat -> list Q) (mat : list Q) n h :
  (forall r, (r < h)%nat -> row r = take n (drop (r * n) mat)) ->
  flat_map row (seq 0 h) = take (h * n) mat.
Proof.
  induction h as [|h IH]; intros Hrow; [reflexivity|].
  rewrite seq_S, flat_map_app, IH by (intros; apply Hrow; lia).
  cbn [flat_map Nat.add]. rewrite app_nil_r, Hrow by lia.
  rewrite take_take_drop. f_equal. lia.
Qed.

Lemma flat_map_zrange {B} (f : Z -> list B) n :
  flat_map f (zrange n) = flat_map (fun r => f (Z.of_nat r)) (seq 0 (Z.to_nat n)).
Proof. unfold zrange. induction (seq 0 (Z.to_nat n)); cbn; congruence. Qed.

Lemma row_by_lookup (mat : list Q) o n :
  (o + n <= length mat)%nat ->
  map (fun c => default 0%Q (mat !! (o + c)%nat)) (seq 0 n) = take n (drop o mat).
Proof.
  intros Hlen. apply list_eq. intros q.
  rewrite list_lookup_fmap.
  destruct (decide (q < n)%nat).
  - rewrite lookup_seq_lt, lookup_take_lt, lookup_drop by assumption. cbn.
    destruct (lookup_lt_is_Some_2 mat (o + q) ltac:(lia)) as [x ->]. reflexivity.
  - rewrite lookup_seq_ge, lookup_take_ge by lia. reflexivity.
Qed.

(** Assigning a full-size block stores the block. *)
Lemma broadcast_full (mat : list Q) height width :
  0 <= height -> 0 <= width -> Z.of_nat (length mat) = height * width ->
  broadcast_to mat height width height width = Ok mat.
Proof.
  intros Hh Hw Hlen. unfold broadcast_to. rewrite !Z.eqb_refl. cbn [orb andb].
  f_equal. rewrite flat_map_zrange.
  rewrite (rows_concat _ mat (Z.to_nat width)).
  - apply take_ge. nia.
  - intros r Hr. unfold Alignment.zrange. rewrite map_map.
    rewrite <- (row_by_lookup mat (r * Z.to_nat width) (Z.to_nat width)) by nia.
    apply map_ext. intros c. do 2 f_equal. nia.
Qed.

(** A crop of nothing is the matrix. *)
Lemma crop2d_full (mat : list Q) height width :
  0 <= height -> 0 <= width -> Z.of_nat (length mat) = height * width ->
  crop2d mat width 0 height 0 width = mat.
Proof.
  intros Hh Hw Hlen. unfold crop2d. rewrite flat_map_zrange.
  rewrite (rows_concat _ mat (Z.to_nat width)).
  - apply take_ge. nia.
  - intros r Hr. change (Z.to_nat 0) with 0%nat. rewrite drop_0, take_idemp.
    do 2 f_equal. nia.
Qed.

Lemma slice_range_full n : 0 <= n -> slice_range 0 (n - 0) n = (0, n).
Proof.
  intros Hn. unfold slice_range, slice_bound. rewrite Z.sub_0_r.
  change (0 <? 0) with false. cbv iota.
  destruct (Z.ltb_spec n 0); [lia|]. f_equal; lia.
Qed.


Lemma for_range_ext (f g : nat -> M unit) start count w :
  (forall i w, f i w = g i w) -> for_range f start count w = for_range g start count w.
Proof.
  intros Hfg. revert start w. induction count as [|k IH]; intros start w; cbn; [reflexivity|].
  unfold bind. rewrite Hfg. destruct (g start w) as [[[]|e] w1]; [apply IH | reflexivity].
Qed.

Section Loops.

Variable map_coordinates :
  list Q -> list Z -> list Q -> list Q -> Z -> string -> result (list Q).

Lemma resample_Ok_inv d i height width yd xd order mode w0 mat w1 :
  resample map_coordinates d i height width yd xd order mode w0 = (Ok mat, w1) ->
  map_coordinates (get_slice (default [] (heap w0 !! base d)) i (Z.to_nat (height * width)))
    [height; width] yd xd order mode = Ok mat
  /\ Z.of_nat (length mat) = height * width
  /\ fs w1 = fs w0 /\ heap w1 = heap w0.
Proof.
  unfold resample, bind, read_buffer.
  destruct (decide (ndim d = 3%nat)); [|discriminate].
  unfold emit, lift. cbn [fs heap trace].
  destruct (map_coordinates _ _ _ _ _ _) as [m|]; [|discriminate].
  unfold reshape. destruct (Z.eqb_spec (Z.of_nat (length m)) (height * width)); [|discriminate].
  intros [= <- <-]. repeat split; assumption.
Qed.

Lemma unwarp_B_Ok_inv d height width yd xd order mode i w0 w1 :
  0 <= height -> 0 <= width ->
  unwarp_B map_coordinates d height width yd xd order mode i w0 = (Ok tt, w1) ->
  let n := Z.to_nat (height * width) in
  let buf := default [] (heap w0 !! base d) in
  exists mat,
    map_coordinates (get_slice buf i n) [height; width] yd xd order mode = Ok mat
    /\ length mat = n
    /\ heap w1 = <[base d := set_slice buf i n mat]> (heap w0).
Proof.
  intros Hh Hw H. cbv zeta. unfold unwarp_B in H.
  apply bind_Ok_inv in H as (mat & w2 & Hres & Hset).
  apply resample_Ok_inv in Hres as (Hmc & Hlen & _ & Hheap).
  exists mat. split; [exact Hmc|]. split; [lia|].
  unfold setitem_slice in Hset. rewrite (broadcast_full mat height width Hh Hw Hlen) in Hset.
  unfold bind, lift, read_buffer, write_buffer in Hset. injection Hset as <-.
  cbn [heap]. rewrite Hheap. reflexivity.
Qed.

(** Without a crop the loop body of variant A is that of variant B at
    order 1 with reflection. *)
Lemma unwarp_A_no_crop d height width yd xd i w0 :
  0 <= height -> 0 <= width ->
  unwarp_A map_coordinates d height width 0 yd xd i w0
  = unwarp_B map_coordinates d height width yd xd 1 "reflect" i w0.
Proof.
  intros Hh Hw. unfold unwarp_A, unwarp_B, bind.
  destruct (resample _ _ _ _ _ _ _ _ _ w0) as [[mat|e] w1] eqn:E; [|reflexivity].
  apply resample_Ok_inv in E as (_ & Hlen & _).
  rewrite !slice_range_full by assumption.
  now rewrite crop2d_full.
Qed.

(** The body pays no attention to the trace. *)
Lemma unwarp_B_same_store d height width yd xd order mode i f hp t t' :
  let ra := unwarp_B map_coordinates d height width yd xd order mode i (World f hp t) in
  let rb := unwarp_B map_coordinates d height width yd xd order mode i (World f hp t') in
  fst ra = fst rb /\ fs (snd ra) = fs (snd rb) /\ heap (snd ra) = heap (snd rb).
Proof.
  cbv zeta.
  unfold unwarp_B, resample, setitem_slice, bind, read_buffer, emit, lift, write_buffer,
    raise. cbn [heap fs trace].
  destruct (decide (ndim d = 3%nat)); [|repeat split].
  cbn [heap fs trace].
  destruct (map_coordinates _ _ _ _ _ _) as [m|]; [|repeat split].
  destruct (reshape m height width); [|repeat split].
  destruct (broadcast_to _ _ _ _ _); repeat split.
Qed.

Lemma for_range_same_store d height width yd xd order mode count start f hp t t' :
  let ra := for_range (unwarp_B map_coordinates d height width yd xd order mode)
              start count (World f hp t) in
  let rb := for_range (unwarp_B map_coordinates d height width yd xd order mode)
              start count (World f hp t') in
  fst ra = fst rb /\ fs (snd ra) = fs (snd rb) /\ heap (snd ra) = heap (snd rb).
Proof.
  cbv zeta. revert start f hp t t'.
  induction count as [|k IH]; intros start f hp t t'; [repeat split|].
  cbn [for_range]. unfold bind.
  pose proof (unwarp_B_same_store d height width yd xd order mode start f hp t t') as S.
  cbv zeta in S.
  destruct (unwarp_B _ _ _ _ _ _ _ _ _ (World f hp t)) as [ra [fa ha ta]].
  destruct (unwarp_B _ _ _ _ _ _ _ _ _ (World f hp t')) as [rb [fb hb tb]].
  cbn [fst snd fs heap] in S. destruct S as (-> & -> & ->).
  destruct rb as [[]|e]; [apply IH | repeat split].
Qed.

(** The loop of variant B, slice by slice. *)
Lemma loop_B_slices d height width yd xd order mode count :
  0 <= height -> 0 <= width ->
  let n := Z.to_nat (height * width) in
  forall k start w0 b w1,
    (start + k = count)%nat ->
    heap w0 !! base d = Some b -> length b = (count * n)%nat ->
    for_range (unwarp_B map_coordinates d height width yd xd order mode) start k w0
    = (Ok tt, w1) ->
    exists b',
      heap w1 !! base d = Some b' /\ length b' = length b
      /\ (forall j, (j < start)%nat -> get_slice b' j n = get_slice b j n)
      /\ (forall j, (start <= j < count)%nat ->
            map_coordinates (get_slice b j n) [height; width] yd xd order mode
            = Ok (get_slice b' j n)).
Proof.
  intros Hh Hw n k. induction k as [|k IH]; intros start w0 b w1 Hsum Hb Hlen H.
  - cbn in H. injection H as <-. exists b. repeat split; auto. intros j Hj. lia.
  - cbn [for_range] in H.
    apply bind_Ok_inv in H as ([] & w2 & Hbody & Hrest).
    apply unwarp_B_Ok_inv in Hbody as (mat & Hmc & Hmat & Hheap); try assumption.
    rewrite Hb in Hmc, Hheap. cbn [default] in Hmc, Hheap. fold n in Hmc, Hmat, Hheap.
    assert (Hfit : ((start + 1) * n <= length b)%nat) by nia.
    destruct (IH (S start) w2 (set_slice b start n mat) w1) as (b' & Hb' & Hlen' & Hlow & Hhigh);
      [lia | rewrite Hheap; apply lookup_insert_eq
       | rewrite length_set_slice by assumption; exact Hlen | exact Hrest |].
    exists b'. split; [exact Hb'|]. split.
    { rewrite Hlen'. now apply length_set_slice. }
    split.
    + intros j Hj. rewrite Hlow by lia. apply get_set_slice_other; try assumption. lia.
    + intros j Hj. destruct (decide (j = start)) as [->|Hne].
      * rewrite Hlow by lia. rewrite get_set_slice_same by assumption. exact Hmc.
      * rewrite <- Hhigh by lia.
        rewrite get_set_slice_other by (assumption || lia). reflexivity.
Qed.

End Loops.

Section Theorems.

Variable py_float : string -> option Q.
Variable cp_sqrt : Q -> Q.
Variable map_coordinates :
  list Q -> list Z -> list Q -> list Q -> Z -> string -> result (list Q).

(** X12: after a successful run of variant B every slice of the caller's
    buffer holds what [map_coordinates] made of that slice of the input,
    at the one coordinate field of the call and with the caller's order
    and mode; the buffer keeps its length. *)
Theorem variant_B_resamples_every_slice data path preview order mode w out w'
    xc yc lf shift xo yo count height width inp :
  shape (promoted data) = [count; height; width] ->
  0 <= height -> 0 <= width ->
  fst (_load_metadata_txt py_float path w) = Ok (xc, yc, lf) ->
  preview !! "starts" = Some shift ->
  shift !! 1%nat = Some xo -> shift !! 0%nat = Some yo ->
  heap w !! base data = Some inp ->
  length inp = (Z.to_nat count * Z.to_nat (height * width))%nat ->
  distortion_correction_proj_discorpy py_float cp_sqrt map_coordinates data path
    preview order mode w = (Ok out, w') ->
  let '(xd_mat, yd_mat) :=
    distortion_field cp_sqrt (xc - inject_Z xo) (yc - inject_Z yo) lf height width in
  exists outbuf,
    heap w' !! base data = Some outbuf /\ length outbuf = length inp
    /\ forall j, (j < Z.to_nat count)%nat ->
         map_coordinates (get_slice inp j (Z.to_nat (height * width)))
           [height; width] yd_mat xd_mat order mode
         = Ok (get_slice outbuf j (Z.to_nat (height * width))).
Proof.
  intros Hshape Hh Hw Hload Hshift Hxo Hyo Hinp Hlen H.
  pose proof H as H0. apply variant_B_Ok_inv in H0
    as (xc' & yc' & lf' & w1 & shift' & step & sx & sy & xo' & yo' & c' & h' & w0
        & Hl & Hshift' & Hstep & Hsx & Hsy & Hmax & Hxo' & Hyo' & Hc' & Hh' & Hw').
  erewrite (variant_B_run py_float cp_sqrt map_coordinates) in H by eassumption.
  rewrite Hl in Hload. cbn [fst] in Hload. injection Hload as -> -> ->.
  rewrite Hshift in Hshift'. injection Hshift' as <-.
  rewrite Hxo in Hxo'. rewrite Hyo in Hyo'. injection Hxo' as <-. injection Hyo' as <-.
  rewrite Hshape in Hc', Hh', Hw'. cbn in Hc', Hh', Hw'.
  injection Hc' as <-. injection Hh' as <-. injection Hw' as <-.
  destruct (distortion_field _ _ _ _ _ _) as [xd yd]. cbn [fst snd] in H.
  apply bind_Ok_inv in H as ([] & w3 & Hloop & Hret). injection Hret as _ <-.
  apply load_host_only in Hl as (_ & Hheap & _).
  destruct (loop_B_slices map_coordinates (promoted data) height width yd xd order mode
              (Z.to_nat count) Hh Hw (Z.to_nat count) 0%nat
              (World (fs w1) (heap w1) (trace w1 ++ geometry_events height width))
              inp w3 eq_refl
              ltac:(cbn [heap]; rewrite FrameFacts.promoted_base, Hheap; exact Hinp) Hlen Hloop)
    as (b' & Hb' & Hlen' & _ & Hall).
  rewrite FrameFacts.promoted_base in Hb'.
  exists b'. split; [exact Hb'|]. split; [exact Hlen'|].
  intros j Hj. apply Hall. lia.
Qed.

(** X13: variant A called without a crop does to the store what variant B
    does at order 1 with reflection: whenever the first succeeds, so does
    the second, with the same array returned and the same buffers. *)
Theorem variant_A_without_crop_is_variant_B data path preview cl ct coeffs w out wA :
  distortion_correction_proj py_float cp_sqrt map_coordinates data path preview
    cl ct coeffs 0 w = (Ok out, wA) ->
  exists wB,
    distortion_correction_proj_discorpy py_float cp_sqrt map_coordinates data path
      preview 1 "reflect" w = (Ok out, wB)
    /\ heap wB = heap wA.
Proof.
  intros H. pose proof H as H0.
  apply variant_A_Ok_inv in H0
    as (p & xc & yc & lf & shift & step & sx & sy & xo & yo & count & height & width
        & xd & yd & diff & t2 & -> & Hload & Hshift & Hstep & Hsx & Hsy & Hmax & Hxo & Hyo
        & Hc & Hh & Hw & Hfield & Hs & Hd & Htail).
  destruct (spread_needs_two_rows cp_sqrt _ _ _ _ _ _ _ _ _ _ Hfield Hs Hd) as [Hh2 Hw1].
  destruct (_load_metadata_txt py_float (Some p) w) as [r w1] eqn:Hl.
  cbn [fst] in Hload. subst r.
  erewrite (variant_B_run py_float cp_sqrt map_coordinates) by eassumption.
  rewrite Hfield. cbn [fst snd].
  apply load_host_only in Hl as (Hfs & Hheap & _).
  unfold bind in Htail |- *.
  rewrite (for_range_ext _ (unwarp_B map_coordinates (promoted data) height width yd xd
                              1 "reflect")) in Htail
    by (intros; apply unwarp_A_no_crop; lia).
  pose proof (for_range_same_store map_coordinates (promoted data) height width yd xd
                1 "reflect" (Z.to_nat count) 0%nat (fs w) (heap w) t2
                (trace w1 ++ geometry_events height width)) as S.
  cbv zeta in S. rewrite Hfs, Hheap.
  destruct (for_range _ 0 (Z.to_nat count) (World (fs w) (heap w) t2)) as [ra wa].
  destruct (for_range _ 0 (Z.to_nat count) (World (fs w) (heap w) _)) as [rb wb].
  cbn [fst snd] in S. destruct S as (<- & _ & Hhp).
  destruct ra as [[]|e]; [|discriminate].
  unfold ret in Htail |- *. injection Htail as <- <-.
  exists wb. split; [reflexivity | now symmetry].
Qed.

End Theorems.

Import Examples.

Lemma variant_B_resamples_witness :
  exists out w' outbuf,
    distortion_correction_proj_discorpy Decimal.decimal_float sqrt_floor bilinear vol122
      (Some "collapse.txt") preview_full 1 "reflect" world0 = (Ok out, w')
    /\ heap w' !! base vol122 = Some outbuf
    /\ length outbuf = 4%nat.
Proof.
  destruct (distortion_correction_proj_discorpy Decimal.decimal_float sqrt_floor bilinear
              vol122 (Some "collapse.txt") preview_full 1 "reflect" world0)
    as [[out|e] w'] eqn:E; [|vm_compute in E; discriminate E].
  pose proof (variant_B_resamples_every_slice Decimal.decimal_float sqrt_floor bilinear
                vol122 (Some "collapse.txt") preview_full 1 "reflect" world0 out w'
                0%Q 0%Q [0%Q] [0; 0] 0 0 1 2 2 (map q [10; 20; 30; 40])
                eq_refl ltac:(lia) ltac:(lia) eq_refl eq_refl eq_refl eq_refl eq_refl
                eq_refl E) as T.
  destruct (distortion_field _ _ _ _ _ _) as [xd yd].
  destruct T as (outbuf & Hb & Hl & _).
  exists out, w', outbuf. split; [reflexivity|]. split; [exact Hb | exact Hl].
Defined.

Lemma variant_A_without_crop_witness :
  exists out wA wB,
    distortion_correction_proj Decimal.decimal_float sqrt_floor bilinear vol133
      (Some "half.txt") preview_full None None None 0 world0 = (Ok out, wA)
    /\ distortion_correction_proj_discorpy Decimal.decimal_float sqrt_floor bilinear
         vol133 (Some "half.txt") preview_full 1 "reflect" world0 = (Ok out, wB)
    /\ heap wB = heap wA.
Proof.
  destruct (distortion_correction_proj Decimal.decimal_float sqrt_floor bilinear vol133
              (Some "half.txt") preview_full None None None 0 world0)
    as [[out|e] wA] eqn:E; [|vm_compute in E; discriminate E].
  destruct (variant_A_without_crop_is_variant_B Decimal.decimal_float sqrt_floor bilinear
              vol133 (Some "half.txt") preview_full None None None world0 out wA E)
    as (wB & HB & Hheap).
  exists out, wA, wB. split; [reflexivity|]. split; [exact HB | exact Hheap].
Defined.

End CorrectorLoops.

(** ** More on the median filter *)

Module MedianMore.
Import Py World WorldFacts Corr.

(** X14: a successful call tells that the input passed the three checks, hands
    back an array of the input's shape and element type, and has added
    to the trace one compilation of the routine named after the element
    type and the kernel size, one allocation of as many elements as the
    volume has, and one launch on blocks of 128 threads, the fewest per
    row that reach every column, with one row of blocks per row and one
    plane per slice of the volume. *)
Theorem median_filter3d_success_launch data kernel_size dif w out w' :
  Forall (fun d => 0 <= d) (shape data) ->
  median_filter3d data kernel_size dif w = (Ok out, w') ->
  exists dz dy dx,
    shape data = [dz; dy; dx] /\ 0 < dz /\ 0 < dy /\ 0 < dx
    /\ Np.dtype_name (dtype data) ∈ ["float32"; "uint16"]
    /\ default 3 kernel_size ∈ [3; 5; 7; 9; 11; 13]
    /\ shape out = shape data /\ dtype out = dtype data
    /\ let name :=
         "median_general_kernel<"
         +:+ (if bool_decide (Np.dtype_name (dtype data) = "float32")
              then "float" else "unsigned short")
         +:+ ", " +:+ pretty (default 3 kernel_size) +:+ ">" in
       let grid_x := (dx + 128 - 1) / 128 in
       trace w'
       = trace w ++ [KernelCompile ("median_kernel" +:+ ":" +:+ name);
                     DeviceAlloc "out" (dz * dy * dx);
                     KernelLaunch name (grid_x, dy, dz) (128, 1, 1)]
       /\ (grid_x - 1) * 128 < dx <= grid_x * 128.
Proof.
  intros Hnn. unfold median_filter3d.
  destruct (bool_decide (Np.dtype_name (dtype data) ∈ ["float32"; "uint16"])) eqn:Hd;
    [|discriminate].
  apply bool_decide_eq_true_1 in Hd. cbn [negb].
  unfold bind at 1.
  destruct (decide (ndim data = 3%nat)); [|discriminate].
  destruct (bool_decide (0 ∈ shape data)) eqn:H0; [discriminate|].
  apply bool_decide_eq_false_1 in H0.
  unfold ret at 1.
  destruct (bool_decide (default 3 kernel_size ∈ [3; 5; 7; 9; 11; 13])) eqn:Hk;
    [|discriminate].
  apply bool_decide_eq_true_1 in Hk. cbn [negb].
  destruct (shape data) as [|dz [|dy [|dx [|? ?]]]] eqn:Hs; try discriminate.
  unfold bind, load_cuda_module, emit, ret, cp_empty, launch, read_buffer,
    write_buffer, bind.
  cbn [heap fs trace base]. unfold emit. cbn [heap fs trace base kname].
  intros [= <- <-]. cbn [shape dtype trace].
  assert (Hpos : 0 < dz /\ 0 < dy /\ 0 < dx).
  { apply Forall_cons in Hnn as [? Hnn]. apply Forall_cons in Hnn as [? Hnn].
    apply Forall_cons in Hnn as [? _].
    repeat split.
    - destruct (Z.eq_dec dz 0) as [->|]; [|lia]. exfalso. apply H0, list_elem_of_here.
    - destruct (Z.eq_dec dy 0) as [->|]; [|lia]. exfalso.
      apply H0, list_elem_of_further, list_elem_of_here.
    - destruct (Z.eq_dec dx 0) as [->|]; [|lia]. exfalso.
      apply H0, list_elem_of_further, list_elem_of_further, list_elem_of_here. }
  destruct Hpos as (Hz & Hy & Hx).
  exists dz, dy, dx. repeat (split; [first [reflexivity | assumption]|]).
  cbv zeta. split.
  - rewrite <- !app_assoc. cbn [app]. do 3 f_equal.
    unfold product. cbn [fold_right]. rewrite Z2Nat.id by nia. f_equal. ring.
  - pose proof (Z.div_mod (dx + 128 - 1) 128 ltac:(lia)).
    pose proof (Z.mod_pos_bound (dx + 128 - 1) 128 ltac:(lia)). lia.
Qed.

Lemma median_filter3d_success_witness :
  exists out w',
    median_filter3d Examples.vol133 (Some 5) None Examples.world0 = (Ok out, w')
    /\ shape out = [1; 3; 3]
    /\ trace w'
       = [KernelCompile "median_kernel:median_general_kernel<float, 5>";
          DeviceAlloc "out" 9;
          KernelLaunch "median_general_kernel<float, 5>" (1, 3, 1) (128, 1, 1)].
Proof.
  destruct (median_filter3d Examples.vol133 (Some 5) None Examples.world0)
    as [[out|e] w'] eqn:E; [|vm_compute in E; discriminate E].
  destruct (median_filter3d_success_launch Examples.vol133 (Some 5) None Examples.world0
              out w' ltac:(repeat constructor; lia) E)
    as (dz & dy & dx & Hs & _ & _ & _ & _ & _ & Hso & _ & Ht & _).
  injection Hs as <- <- <-.
  exists out, w'. split; [reflexivity|]. split; [exact Hso | exact Ht].
Defined.

End MedianMore.

(** ** What the correctors do not look at *)

Module CorrectorInputs.
Import Py World WorldFacts Alignment AlignmentParts LoaderFacts RunFacts.

Section Correctors.

Variable py_float : string -> option Q.
Variable cp_sqrt : Q -> Q.
Variable map_coordinates :
  list Q -> list Z -> list Q -> list Q -> Z -> string -> result (list Q).

(** X16: variant A never looks at [center_from_left], [center_from_top] and
    [polynomial_coeffs]: whatever is passed for them, the outcome is the
    same. *)
Theorem variant_A_ignores_centre_parameters data path preview cl ct coeffs cl' ct'
    coeffs' crop w :
  distortion_correction_proj py_float cp_sqrt map_coordinates data path preview
    cl ct coeffs crop w
  = distortion_correction_proj py_float cp_sqrt map_coordinates data path preview
      cl' ct' coeffs' crop w.
Proof.
  destruct path as [p|]; [reflexivity|].
  now rewrite !AlignmentFacts.metadata_none_raises.
Qed.

(** X17: of the preview only the [starts] and [steps] entries count. *)
Theorem correctors_read_only_starts_and_steps data path preview preview' cl ct coeffs
    crop order mode w :
  preview !! "starts" = preview' !! "starts" ->
  preview !! "steps" = preview' !! "steps" ->
  distortion_correction_proj py_float cp_sqrt map_coordinates data path preview
    cl ct coeffs crop w
  = distortion_correction_proj py_float cp_sqrt map_coordinates data path preview'
      cl ct coeffs crop w
  /\ distortion_correction_proj_discorpy py_float cp_sqrt map_coordinates data path
       preview order mode w
     = distortion_correction_proj_discorpy py_float cp_sqrt map_coordinates data path
         preview' order mode w.
Proof.
  intros H1 H2.
  unfold distortion_correction_proj, distortion_correction_proj_discorpy, dict_getitem.
  rewrite H1, H2. split; reflexivity.
Qed.

End Correctors.

Import Examples.

Lemma correctors_read_only_starts_and_steps_witness :
  distortion_correction_proj Decimal.decimal_float sqrt_floor bilinear vol133
    (Some "half.txt") preview_full None None None 0 world0
  = distortion_correction_proj Decimal.decimal_float sqrt_floor bilinear vol133
      (Some "half.txt") {[ "starts" := [0; 0]; "steps" := [1; 1] ]} None None None 0
      world0.
Proof.
  apply (correctors_read_only_starts_and_steps Decimal.decimal_float sqrt_floor bilinear
           vol133 (Some "half.txt") preview_full
           {[ "starts" := [0; 0]; "steps" := [1; 1] ]} None None None 0 1 "reflect"
           world0); reflexivity.
Defined.

End CorrectorInputs.

(** ** The estimator and the element size *)

Module EstimatorItemsize.
Import Np Estimator EstimatorFacts.

(** X18: with the overhead of the larger element type covered, a smaller
    element type never gets the lower estimate. *)
Theorem max_slices_smaller_itemsize h w dt1 dt2 avail :
  0 <= h -> 0 <= w -> 0 < itemsize dt1 <= itemsize dt2 ->
  in_int64 (fixed_overhead h w (itemsize dt2)) ->
  in_int64 avail ->
  fixed_overhead h w (itemsize dt2) <= avail ->
  fst (fst (_calc_max_slices_distortion_correction_proj (h, w) dt2 avail))
  <= fst (fst (_calc_max_slices_distortion_correction_proj (h, w) dt1 avail)).
Proof.
  intros Hh Hw Hi Ho Ha Hge.
  assert (Hhw : 0 <= h * w) by nia.
  assert (Ho12 : fixed_overhead h w (itemsize dt1) <= fixed_overhead h w (itemsize dt2))
    by (unfold fixed_overhead; nia).
  assert (Ho1 : 0 <= fixed_overhead h w (itemsize dt1)) by (unfold fixed_overhead; nia).
  unfold in_int64 in *.
  rewrite !max_slices_in_range by (unfold in_int64; lia). cbn [fst].
  destruct (Z.eq_dec (h * w) 0) as [E|N].
  - rewrite E. cbn. rewrite !Z.div_0_r. lia.
  - assert (0 < h * w * itemsize dt1) by nia.
    etransitivity.
    + apply Z.div_le_compat_l with (q := h * w * itemsize dt1); [lia | nia].
    + apply Z.div_le_mono; lia.
Qed.

Lemma max_slices_smaller_itemsize_witness :
  fst (fst (_calc_max_slices_distortion_correction_proj (111, 121) float32 100000000))
  <= fst (fst (_calc_max_slices_distortion_correction_proj (111, 121) uint16 100000000)).
Proof.
  apply (max_slices_smaller_itemsize 111 121 uint16 float32 100000000);
    try lia; try (cbn; lia); vm_compute; try split; (discriminate || reflexivity).
Defined.

End EstimatorItemsize.
